(** * Markdown viewer with live reload and PDF export

    A shallow embedding of the browser client ([public/client.js]) and of the
    server ([server.js]: the content endpoint, the PDF endpoint, the event
    stream and the file watcher), with the properties the specification
    states about them.

    Layout: the definitions come first (module [Js] for the small
    promise/exception monad, [Client] for client.js, [Server] for
    server.js, [Wiring] for the page's start-up, [Http] for a response on
    its way from the server to the client), the theorems follow in the
    second half of the file. *)

From Stdlib Require Import Ascii String.
From stdpp Require Import gmap strings list pretty.

(** ** Promises and exceptions

    An awaited promise is either fulfilled with a value or rejected with a
    reason; a [throw] inside an [async] function is a rejection of the
    function's own promise.  Code between two [await]s runs without
    interleaving, so one run of such a piece is a state transformer. *)

Module Js.

Inductive settled (A : Type) : Type :=
  | Fulfilled (a : A)
  | Rejected (reason : string).
Arguments Fulfilled {A} a.
Arguments Rejected {A} reason.

Section Monad.
Context {S : Type}.

Definition js (A : Type) : Type := S → settled A * S.

Definition ret {A} (a : A) : js A := λ s, (Fulfilled a, s).

Definition bind {A B} (m : js A) (k : A → js B) : js B := λ s,
  match m s with
  | (Fulfilled a, s') => k a s'
  | (Rejected e, s') => (Rejected e, s')
  end.

Definition throw {A} (e : string) : js A := λ s, (Rejected e, s).

(** [await p] for a promise whose outcome is already decided by the
    environment. *)
Definition await {A} (p : settled A) : js A := λ s, (p, s).

(** [try { body } catch (error) { handler }]: effects of [body] up to the
    throw are kept. *)
Definition try_catch {A} (body : js A) (handler : string → js A) : js A := λ s,
  match body s with
  | (Fulfilled a, s') => (Fulfilled a, s')
  | (Rejected e, s') => handler e s'
  end.

Definition modify (f : S → S) : js unit := λ s, (Fulfilled tt, f s).
Definition gets {A} (f : S → A) : js A := λ s, (Fulfilled (f s), s).
End Monad.

Arguments js : clear implicits.

Module Import Notations.
Notation "x <- m ;; k" := (bind m (λ x, k))
  (at level 100, m at next level, right associativity,
   format "'[v' x  <-  m  ;;  '/' k ']'").
Notation "m ;;; k" := (bind m (λ _, k))
  (at level 100, right associativity, format "'[v' m  ;;;  '/' k ']'").
End Notations.

(** [l.forEach(f)] *)
Fixpoint for_each {S A : Type} (l : list A) (f : A → js S unit) : js S unit :=
  match l with
  | [] => ret tt
  | x :: rest => f x ;;; for_each rest f
  end.

End Js.

Import Js Js.Notations.

(** The double-quote character, for markup and JSON literals. *)
Definition dq : string := String "034"%char EmptyString.

(** ** The browser client, [public/client.js] *)

Module Client.

(** JavaScript values that reach the DOM from a parsed response. *)
Inductive js_value : Type :=
  | VUndefined
  | VNull
  | VString (s : string).

(** Result of [JSON.parse] / [response.json()]. *)
Inductive json : Type :=
  | JNull
  | JObject (fields : gmap string js_value)
  | JAtom.

(** Property read [data.k]: a [TypeError] on [null], [undefined] for a
    missing property or a primitive. *)
Definition get_field (data : json) (k : string) : settled js_value :=
  match data with
  | JNull => Rejected "TypeError"
  | JObject fields => Fulfilled (default VUndefined (fields !! k))
  | JAtom => Fulfilled VUndefined
  end.

(** What [el.innerHTML = v] stores: the value converted to a string
    ([null] becomes the empty string for [innerHTML]). *)
Definition to_markup (v : js_value) : string :=
  match v with
  | VUndefined => "undefined"
  | VNull => EmptyString
  | VString s => s
  end.

(** [data.type === t] *)
Definition strict_eq_string (v : js_value) (t : string) : bool :=
  match v with
  | VString s => bool_decide (s = t)
  | _ => false
  end.

(** The part of a [fetch] response the client uses. *)
Record response : Type := Response {
  ok : bool;
  json_body : settled json;     (* outcome of [response.json()] *)
  blob_body : settled string;   (* outcome of [response.blob()] *)
}.

(** The properties of a DOM element the client reads or writes. *)
Record element : Type := Element {
  innerHTML : string;
  textContent : string;
  disabled : bool;
  opacity : string;
}.

Definition set_innerHTML (v : string) (e : element) : element :=
  Element v (textContent e) (disabled e) (opacity e).
Definition set_textContent (v : string) (e : element) : element :=
  Element (innerHTML e) v (disabled e) (opacity e).
Definition set_disabled (v : bool) (e : element) : element :=
  Element (innerHTML e) (textContent e) v (opacity e).
Definition set_opacity (v : string) (e : element) : element :=
  Element (innerHTML e) (textContent e) (disabled e) v.

(** The closure handed to [setTimeout] in [loadMarkdown]; it captures
    [contentElement] and [data]. *)
Inductive callback : Type :=
  | ShowContent (contentElement : option string) (data : json).

Inductive level : Type := Log | Error.

Inductive url : Type := ObjectURL (n : nat).

(** The page as client.js sees it.  Elements live in a store keyed by their
    id; a reference obtained from [getElementById] is that key. *)
Record page : Type := Page {
  elements : gmap string element;
  console : list (level * string);
  alerts : list string;
  windows : list (url * string);      (* [window.open(url, target)] *)
  timers : list (nat * callback);     (* pending [setTimeout]s, oldest first *)
  object_urls : list string;          (* blobs registered by [createObjectURL] *)
  requests : list string;             (* URLs passed to [fetch] *)
}.

Definition with_elements (f : gmap string element → gmap string element) (p : page) : page :=
  Page (f (elements p)) (console p) (alerts p) (windows p) (timers p) (object_urls p) (requests p).
Definition with_console (f : list (level * string) → list (level * string)) (p : page) : page :=
  Page (elements p) (f (console p)) (alerts p) (windows p) (timers p) (object_urls p) (requests p).
Definition with_alerts (f : list string → list string) (p : page) : page :=
  Page (elements p) (console p) (f (alerts p)) (windows p) (timers p) (object_urls p) (requests p).
Definition with_windows (f : list (url * string) → list (url * string)) (p : page) : page :=
  Page (elements p) (console p) (alerts p) (f (windows p)) (timers p) (object_urls p) (requests p).
Definition with_timers (f : list (nat * callback) → list (nat * callback)) (p : page) : page :=
  Page (elements p) (console p) (alerts p) (windows p) (f (timers p)) (object_urls p) (requests p).
Definition with_object_urls (f : list string → list string) (p : page) : page :=
  Page (elements p) (console p) (alerts p) (windows p) (timers p) (f (object_urls p)) (requests p).
Definition with_requests (f : list string → list string) (p : page) : page :=
  Page (elements p) (console p) (alerts p) (windows p) (timers p) (object_urls p) (f (requests p)).

(** *** DOM and browser primitives *)

(** [document.getElementById(id)]: the reference, or [null]. *)
Definition getElementById (id : string) : js page (option string) :=
  gets (λ p, match elements p !! id with Some _ => Some id | None => None end).

(** [ref.prop = v]; on [null] this is a [TypeError]. *)
Definition assign (ref : option string) (f : element → element) : js page unit :=
  match ref with
  | None => throw "TypeError"
  | Some id => modify (with_elements (alter f id))
  end.

(** [ref.prop]; on [null] this is a [TypeError]. *)
Definition read {A} (ref : option string) (f : element → A) : js page A :=
  match ref with
  | None => throw "TypeError"
  | Some id => λ p,
      match elements p !! id with
      | Some e => (Fulfilled (f e), p)
      | None => (Rejected "TypeError", p)
      end
  end.

Definition console_log (msg : string) : js page unit :=
  modify (with_console (λ c, c ++ [(Log, msg)])).
Definition console_error (msg : string) : js page unit :=
  modify (with_console (λ c, c ++ [(Error, msg)])).
Definition alert (msg : string) : js page unit :=
  modify (with_alerts (λ a, a ++ [msg])).
Definition setTimeout (cb : callback) (delay : nat) : js page unit :=
  modify (with_timers (λ t, t ++ [(delay, cb)])).
Definition createObjectURL (blob : string) : js page url :=
  u <- gets (λ p, ObjectURL (length (object_urls p))) ;;
  modify (with_object_urls (λ l, l ++ [blob])) ;;;
  ret u.
Definition window_open (u : url) (target : string) : js page unit :=
  modify (with_windows (λ w, w ++ [(u, target)])).

(** The network: what [await fetch(url)] settles to. *)
Definition network : Type := string → settled response.

Definition fetch (net : network) (u : string) : js page response :=
  modify (with_requests (λ r, r ++ [u])) ;;;
  await (net u).

(** *** [loadMarkdown] (client.js lines 2-22) *)

Definition error_markup : string :=
  "<p style=" +:+ dq +:+ "color: red;" +:+ dq +:+
  ">Error loading resume. Please refresh the page.</p>".

(** The function touches the page only after its last [await], so it is
    run in one piece, on the page as it is when the function resumes. *)
Definition loadMarkdown (net : network) : js page unit :=
  try_catch
    (response <- fetch net "/api/markdown" ;;
     data <- await (json_body response) ;;
     contentElement <- getElementById "markdown-content" ;;
     assign contentElement (set_opacity "0.5") ;;;
     setTimeout (ShowContent contentElement data) 100)
    (λ error,
     console_error ("Error loading markdown: " +:+ error) ;;;
     target <- getElementById "markdown-content" ;;
     assign target (set_innerHTML error_markup)).

(** Running the timer callback of [loadMarkdown] (lines 12-15); an
    exception here is uncaught and leaves the page as it is. *)
Definition run_callback (cb : callback) : js page unit :=
  match cb with
  | ShowContent contentElement data =>
      html <- await (get_field data "html") ;;
      assign contentElement (set_innerHTML (to_markup html)) ;;;
      assign contentElement (set_opacity "1")
  end.

(** Fire the oldest pending timer. *)
Definition fire_timer : js page unit := λ p,
  match timers p with
  | [] => (Fulfilled tt, p)
  | (_, cb) :: rest => run_callback cb (with_timers (λ _, rest) p)
  end.

(** *** [exportToPDF] (client.js lines 25-59) *)

Definition loading_label : string := "⏳ Generating PDF...".
Definition export_alert : string := "Error generating PDF. Please try again.".

(** Lines 26-31 and the call of [fetch] on line 35: everything that runs
    before the function suspends at its first [await].  Returns the two
    locals that stay live across the suspension. *)
Definition exportToPDF_begin : js page (option string * string) :=
  exportBtn <- getElementById "export-pdf-btn" ;;
  originalText <- read exportBtn textContent ;;
  assign exportBtn (set_textContent loading_label) ;;;
  assign exportBtn (set_disabled true) ;;;
  modify (with_requests (λ r, r ++ ["/api/generate-pdf"])) ;;;
  ret (exportBtn, originalText).

(** Lines 33-58, resumed once the request has settled to [outcome]. *)
Definition exportToPDF_settle (exportBtn : option string) (originalText : string)
    (outcome : settled response) : js page unit :=
  try_catch
    (response <- await outcome ;;
     (if negb (ok response) then throw "PDF generation failed" else ret tt) ;;;
     blob <- await (blob_body response) ;;
     u <- createObjectURL blob ;;
     window_open u "_blank" ;;;
     assign exportBtn (set_textContent originalText) ;;;
     assign exportBtn (set_disabled false) ;;;
     console_log "✅ PDF generated successfully")
    (λ error,
     console_error ("❌ PDF generation error: " +:+ error) ;;;
     assign exportBtn (set_textContent originalText) ;;;
     assign exportBtn (set_disabled false) ;;;
     alert export_alert).

(** One whole invocation with nothing else running while it is suspended. *)
Definition exportToPDF (net : network) : js page unit :=
  locals <- exportToPDF_begin ;;
  exportToPDF_settle (fst locals) (snd locals) (net "/api/generate-pdf").

(** *** [eventSource.onmessage] (client.js lines 69-78)

    [data] is the parsed [event.data].  [loadMarkdown()] is called without
    [await]; its promise is dropped, its effects on the page stay. *)
Definition onmessage (net : network) (data : json) : js page unit :=
  type <- await (get_field data "type") ;;
  if strict_eq_string type "connected" then
    console_log "🔗 Live reload connection established"
  else if strict_eq_string type "update" then
    console_log "🔄 File changed, reloading content..." ;;;
    (λ p, (Fulfilled tt, snd (loadMarkdown net p)))
  else ret tt.

(** The messages of an event stream, handled in order. *)
Definition receive (net : network) (messages : list json) : js page unit :=
  for_each messages (onmessage net).

(** What "the content fetch fails" means for [loadMarkdown]: the [fetch]
    promise rejects, or the body cannot be read as JSON. *)
Definition content_fetch_fails (net : network) : bool :=
  match net "/api/markdown" with
  | Rejected _ => true
  | Fulfilled r => match json_body r with Rejected _ => true | Fulfilled _ => false end
  end.

(** What "the export request fails" means for [exportToPDF]: a fetch error
    or a response whose [ok] flag is false. *)
Definition export_request_fails (outcome : settled response) : bool :=
  match outcome with
  | Rejected _ => true
  | Fulfilled r => negb (ok r)
  end.

End Client.

(** ** The server, [server.js]

    In the sources the server follows the text of the résumé in one file
    (lines 91-282 of it); line numbers below are those.  The endpoint as an
    earlier document of the repository lists it
    (docs/pdf-library-research.md) is kept beside it. *)

Module Server.

(** *** Responses *)

Inductive payload : Type :=
  | HtmlEnvelope (html : string)      (* [{ html }] *)
  | ErrorEnvelope (error : string)    (* [{ error }] *)
  | PdfDocument (bytes : string).

Record http_response : Type := HttpResponse {
  status : nat;
  content_type : string;
  content_disposition : option string;
  body : payload;
}.

Definition json_ok (html : string) : http_response :=
  HttpResponse 200 "application/json" None (HtmlEnvelope html).
Definition json_error (msg : string) : http_response :=
  HttpResponse 500 "application/json" None (ErrorEnvelope msg).

(** The file name of the listing in docs/pdf-library-research.md. *)
Definition pdf_filename : string := "Brandon_Bellero_Resume.pdf".
Definition pdf_ok (bytes : string) : http_response :=
  HttpResponse 200 "application/pdf"
    (Some ("inline; filename=" +:+ dq +:+ pdf_filename +:+ dq)) (PdfDocument bytes).

(** [res.contentType('application/pdf')], the [Content-Disposition] header
    and [res.send(pdf)] of server.js (lines 212-214). *)
Definition send_pdf (pdf : string) : http_response :=
  HttpResponse 200 "application/pdf"
    (Some ("inline; filename=" +:+ dq +:+ "John_Karpathy_Resume.pdf" +:+ dq))
    (PdfDocument pdf).

(** [fs.readFileSync(path, 'utf-8')] on a disk given as a map from paths to
    contents; a missing file throws. *)
Definition readFileSync (disk : gmap string string) (path : string) : settled string :=
  match disk !! path with
  | Some text => Fulfilled text
  | None => Rejected "ENOENT"
  end.

(** Options of a [page.pdf] call. *)
Record pdf_options : Type := PdfOptions {
  format : string;
  printBackground : bool;
  scale : option nat;
  margin_top : string;
  margin_right : string;
  margin_bottom : string;
  margin_left : string;
}.

(** The options object of the [page.pdf] call as the listing of the
    endpoint gives it (docs/pdf-library-research.md, "Step 2: Add Server
    Endpoint"): format Letter, backgrounds printed, no scale, top margin
    0.25in, the other three 0.5in. *)
Definition pdf_config : pdf_options :=
  PdfOptions "Letter" true None "0.25in" "0.5in" "0.5in" "0.5in".

(** The options object of the [page.pdf] call of server.js (lines
    197-207). *)
Definition print_options : pdf_options :=
  PdfOptions "Letter" true (Some 1) "0.5in" "0.5in" "0.5in" "0.5in".

(** What the claim of uniform half-inch margins asks of an options object. *)
Definition letter_half_inch (o : pdf_options) : Prop :=
  format o = "Letter" ∧ margin_top o = "0.5in" ∧ margin_right o = "0.5in" ∧
  margin_bottom o = "0.5in" ∧ margin_left o = "0.5in".

(** *** The browser automation layer

    Calls the server can issue on the automation layer; [Goto] is the
    navigation server.js avoids (line 193).  The options of [launch]
    (headless, the two flags of [args]) are the same wherever it is called and
    are left out, as is the [waitUntil] of [setContent] and [goto]. *)
Inductive call : Type :=
  | Launch
  | NewPage
  | SetViewport (width height deviceScaleFactor : nat)
  | Goto (address : string)
  | SetContent (html : string)
  | PrintPdf (options : pdf_options)
  | CloseBrowser.

(** One browser process: whether it has a page, the page's viewport and the
    document loaded into it. *)
Record browser : Type := Browser {
  has_page : bool;
  viewport : option (nat * nat * nat);
  document : option string;
}.

(** The automation layer: live browser processes by process number, the
    number of processes started so far (the next process number), and every
    call issued, with the process it went to. *)
Record chromium : Type := Chromium {
  processes : gmap nat browser;
  spawned : nat;
  calls : list (nat * call);
}.

Definition issue (pid : nat) (c : call) : js chromium unit :=
  modify (λ w, Chromium (processes w) (spawned w) (calls w ++ [(pid, c)])).

(** Run [f] on the state of browser [pid]; a dead process rejects. *)
Definition on_browser {A} (pid : nat) (f : browser → settled (A * browser)) : js chromium A := λ w,
  match processes w !! pid with
  | None => (Rejected "Target closed", w)
  | Some b =>
      match f b with
      | Fulfilled (a, b') =>
          (Fulfilled a, Chromium (<[pid := b']> (processes w)) (spawned w) (calls w))
      | Rejected e => (Rejected e, w)
      end
  end.

(** [puppeteer.launch(...)]: a new process under a fresh number. *)
Definition launch : js chromium nat := λ w,
  let pid := spawned w in
  (Fulfilled pid,
   Chromium (<[pid := Browser false None None]> (processes w)) (S pid)
            (calls w ++ [(pid, Launch)])).

Definition newPage (pid : nat) : js chromium unit :=
  issue pid NewPage ;;;
  on_browser pid (λ b, Fulfilled (tt, Browser true (viewport b) (document b))).

Definition setViewport (pid width height deviceScaleFactor : nat) : js chromium unit :=
  issue pid (SetViewport width height deviceScaleFactor) ;;;
  on_browser pid (λ b,
    if has_page b
    then Fulfilled (tt, Browser true (Some (width, height, deviceScaleFactor)) (document b))
    else Rejected "no page").

Definition setContent (pid : nat) (html : string) : js chromium unit :=
  issue pid (SetContent html) ;;;
  on_browser pid (λ b,
    if has_page b then Fulfilled (tt, Browser true (viewport b) (Some html))
    else Rejected "no page").

Definition close (pid : nat) : js chromium unit :=
  issue pid CloseBrowser ;;;
  modify (λ w, Chromium (delete pid (processes w)) (spawned w) (calls w)).

(** The calls that went to process [pid], oldest first. *)
Definition calls_of (pid : nat) (w : chromium) : list call :=
  (filter (λ e, e.1 = pid) (calls w)).*2.

(** The awaited calls of the automation layer the environment can make
    fail besides the printing itself. *)
Inductive awaited : Type :=
  | ALaunch | ANewPage | ASetViewport | ASetContent | AClose.

(** A launch that fails: the call is on record under the number it used
    up, no process is left. *)
Definition failed_launch {A} (e : string) : js chromium A := λ w,
  (Rejected e, Chromium (processes w) (S (spawned w)) (calls w ++ [(spawned w, Launch)])).

(** A call on browser [pid] that the environment lets through, or rejects
    with a reason once it is issued. *)
Definition attempt {A} (fault : option string) (pid : nat) (c : call)
    (m : js chromium A) : js chromium A :=
  match fault with
  | None => m
  | Some e => issue pid c ;;; throw e
  end.

(** *** The event stream: connections, the [clients] array, the watcher *)

(** The two frames server.js writes (lines 232 and 250). *)
Inductive event_type : Type := Connected | Update.

#[export] Instance event_type_eq_dec : EqDecision event_type.
Proof. solve_decision. Defined.

Definition type_name (t : event_type) : string :=
  match t with
  | Connected => "connected"
  | Update => "update"
  end.

Definition newline : string := String "010"%char EmptyString.

(** ['data: {"type":"..."}\n\n'] *)
Definition frame (t : event_type) : string :=
  "data: {" +:+ dq +:+ "type" +:+ dq +:+ ":" +:+ dq +:+ type_name t +:+ dq +:+ "}"
  +:+ newline +:+ newline.

(** What the client's [JSON.parse(event.data)] makes of that frame. *)
Definition parsed (t : event_type) : Client.json :=
  Client.JObject {[ "type" := Client.VString (type_name t) ]}.

(** The response object of one request to /events: the headers set on it,
    the chunks written to it that went out (oldest first), whether the
    connection has closed, and whether a write to it throws. *)
Record connection : Type := Connection {
  headers : list (string * string);
  written : list string;
  closed : bool;
  throws : bool;
}.

(** The process as the event stream sees it: every response object of
    /events under its handle, the [clients] array (line 103), the number of
    connections accepted (the next handle), the console, whether the
    watcher is open, and the exit code once [process.exit] was called. *)
Record server : Type := ServerState {
  connections : gmap nat connection;
  clients : list nat;
  accepted : nat;
  console : list (Client.level * string);
  watching : bool;
  exited : option nat;
}.

Definition with_connections (f : gmap nat connection → gmap nat connection) (s : server) : server :=
  ServerState (f (connections s)) (clients s) (accepted s) (console s) (watching s) (exited s).
Definition with_clients (f : list nat → list nat) (s : server) : server :=
  ServerState (connections s) (f (clients s)) (accepted s) (console s) (watching s) (exited s).
Definition with_console (f : list (Client.level * string) → list (Client.level * string))
    (s : server) : server :=
  ServerState (connections s) (clients s) (accepted s) (f (console s)) (watching s) (exited s).

Definition console_log (msg : string) : js server unit :=
  modify (with_console (λ c, c ++ [(Client.Log, msg)])).
Definition console_error (msg : string) : js server unit :=
  modify (with_console (λ c, c ++ [(Client.Error, msg)])).

Definition add_header (name value : string) (c : connection) : connection :=
  Connection (headers c ++ [(name, value)]) (written c) (closed c) (throws c).
Definition add_chunk (chunk : string) (c : connection) : connection :=
  Connection (headers c) (written c ++ [chunk]) (closed c) (throws c).
Definition shut (c : connection) : connection :=
  Connection (headers c) (written c) true (throws c).
Definition break (c : connection) : connection :=
  Connection (headers c) (written c) (closed c) true.

(** [res.setHeader(name, value)] *)
Definition setHeader (res : nat) (name value : string) : js server unit :=
  modify (with_connections (alter (add_header name value) res)).

(** [res.write(chunk)]: the chunk goes out on an open connection; on one
    that has closed nothing goes out and nothing is thrown; the
    environment can make the write throw. *)
Definition write (res : nat) (chunk : string) : js server unit := λ s,
  match connections s !! res with
  | Some c =>
      if throws c then (Rejected "write failed", s)
      else if closed c then (Fulfilled tt, s)
      else (Fulfilled tt, with_connections (<[res := add_chunk chunk c]>) s)
  | None => (Rejected "TypeError", s)
  end.

(** A request arrives at /events: a response object under a fresh handle. *)
Definition accept : js server nat := λ s,
  (Fulfilled (accepted s),
   ServerState (<[accepted s := Connection [] [] false false]> (connections s)) (clients s)
               (S (accepted s)) (console s) (watching s) (exited s)).

(** The handler of GET /events up to the registration of the close
    listener (lines 224-237). *)
Definition events (res : nat) : js server unit :=
  setHeader res "Content-Type" "text/event-stream" ;;;
  setHeader res "Cache-Control" "no-cache" ;;;
  setHeader res "Connection" "keep-alive" ;;;
  setHeader res "Access-Control-Allow-Origin" "*" ;;;
  write res (frame Connected) ;;;
  modify (with_clients (λ l, l ++ [res])) ;;;
  n <- gets (λ s, length (clients s)) ;;
  console_log ("Client connected. Total clients: " +:+ pretty n).

(** The listener of [req.on('close', ...)] (lines 240-243). *)
Definition on_close (res : nat) : js server unit :=
  modify (with_clients (filter (λ client, client ≠ res))) ;;;
  n <- gets (λ s, length (clients s)) ;;
  console_log ("Client disconnected. Total clients: " +:+ pretty n).

(** [notifyClients] (lines 247-252): no [try] around the writes. *)
Definition notifyClients : js server unit :=
  n <- gets (λ s, length (clients s)) ;;
  console_log ("Notifying " +:+ pretty n +:+ " client(s) of update") ;;;
  cs <- gets clients ;;
  for_each cs (λ client, write client (frame Update)).

(** The options of [chokidar.watch] (lines 255-258). *)
Record watch_options : Type := WatchOptions {
  persistent : bool;
  ignoreInitial : bool;
}.

Definition watcher_options : watch_options := WatchOptions true true.

(** What the watching library finds out about the watched path: the file
    is there when the watch starts, or later it is created, modified or
    removed, or the watch fails. *)
Inductive observation : Type :=
  | Present
  | Created
  | Modified
  | Removed
  | Failed (error : string).

(** The events of the library. *)
Inductive watch_event : Type :=
  | Add (path : string)
  | Change (path : string)
  | Unlink (path : string)
  | WatchError (error : string).

#[export] Instance observation_eq_dec : EqDecision observation.
Proof. solve_decision. Defined.

(** The library: which event an observation is emitted as.  With
    [ignoreInitial] the file found when the watch starts is not announced. *)
Definition chokidar (o : watch_options) (path : string) (obs : observation) : list watch_event :=
  match obs with
  | Present => if ignoreInitial o then [] else [Add path]
  | Created => [Add path]
  | Modified => [Change path]
  | Removed => [Unlink path]
  | Failed error => [WatchError error]
  end.

(** The two listeners server.js puts on the watcher (lines 260-267); an
    event of another name has no listener. *)
Definition on_watch_event (ev : watch_event) : js server unit :=
  match ev with
  | Change filePath =>
      console_log ("File changed: " +:+ filePath) ;;;
      notifyClients
  | WatchError error => console_error ("Watcher error: " +:+ error)
  | Add _ | Unlink _ => ret tt
  end.

(** The SIGINT handler (lines 278-282). *)
Definition on_sigint : js server unit :=
  console_log (newline +:+ newline +:+ "Shutting down server...") ;;;
  modify (λ s, ServerState (connections s) (clients s) (accepted s) (console s) false (exited s)) ;;;
  modify (λ s, ServerState (connections s) (clients s) (accepted s) (console s) (watching s) (Some 0)).

Section Endpoints.
(** [marked] as configured on lines 106-109 and the browser's PDF printer
    are external; either may throw.  [dirname] is [__dirname]. *)
Variable marked : string → settled string.
Variable print_to_pdf : string → pdf_options → settled string.
Variable dirname : string.

(** [page.pdf(options)]: the printer applied to the loaded document. *)
Definition pdf (pid : nat) (options : pdf_options) : js chromium string :=
  issue pid (PrintPdf options) ;;;
  on_browser pid (λ b,
    if has_page b then
      match print_to_pdf (default EmptyString (document b)) options with
      | Fulfilled bytes => Fulfilled (bytes, b)
      | Rejected e => Rejected e
      end
    else Rejected "no page").

(** [page.goto(address, { waitUntil: 'networkidle0' })]: the page holds what
    the address serves. *)
Variable navigate : string → settled string.

Definition goto (pid : nat) (address : string) : js chromium unit :=
  issue pid (Goto address) ;;;
  on_browser pid (λ b,
    if has_page b then
      match navigate address with
      | Fulfilled html => Fulfilled (tt, Browser true (viewport b) (Some html))
      | Rejected e => Rejected e
      end
    else Rejected "no page").

(** The endpoint as listed in docs/pdf-library-research.md ("Step 2: Add
    Server Endpoint", the plan of the migration to Puppeteer); [PORT] is
    the server's own port as the template literal prints it. *)
Variable PORT : string.

Definition listed_generate_pdf : js chromium http_response :=
  try_catch
    (browser <- launch ;;
     newPage browser ;;;
     goto browser ("http://localhost:" +:+ PORT) ;;;
     bytes <- pdf browser pdf_config ;;
     close browser ;;;
     ret (pdf_ok bytes))
    (λ error, ret (json_error "Failed to generate PDF")).

(** The calls one request to the listed endpoint has issued. *)
Definition listed_issued (w : chromium) : list (nat * call) :=
  drop (length (calls w)) (calls (snd (listed_generate_pdf w))).

(** *** The watched file and the content endpoint *)

(** [path.join(__dirname, 'resume.md')] (line 100) and the two stylesheets
    (lines 144-151). *)
Definition RESUME_PATH : string := dirname +:+ "/resume.md".
Definition github_css_path : string :=
  dirname +:+ "/node_modules/github-markdown-css/github-markdown.css".
Definition custom_css_path : string := dirname +:+ "/public/style.css".

(** The handler of GET /api/markdown (lines 123-132). *)
Definition get_markdown (disk : gmap string string) : js server http_response :=
  try_catch
    (markdown <- await (readFileSync disk RESUME_PATH) ;;
     html <- await (marked markdown) ;;
     ret (json_ok html))
    (λ error,
     console_error ("Error reading markdown file: " +:+ error) ;;;
     ret (json_error "Failed to read markdown file")).

(** Requests to /api/markdown one after the other, each against the disk
    as it is then; the answers in order.  A handler that throws ends the
    run. *)
Fixpoint serve (disks : list (gmap string string)) : js server (list http_response) :=
  match disks with
  | [] => ret []
  | disk :: rest =>
      r <- get_markdown disk ;;
      rs <- serve rest ;;
      ret (r :: rs)
  end.

(** *** The live-update pipeline as a transition system *)

Inductive event : Type :=
  | ClientConnects                  (* a request to /events *)
  | ConnectionCloses (res : nat)    (* the connection of [res] closes *)
  | ChannelBreaks (res : nat)       (* from now on a write to [res] throws *)
  | Observed (obs : observation)    (* the watching library observes *)
  | Interrupt.                      (* SIGINT *)

#[export] Instance event_eq_dec : EqDecision event.
Proof. solve_decision. Defined.

(** One event and the handler it triggers.  What a handler throws reaches
    no [catch] of server.js, and whether the process survives it is up to
    the runtime: here the run goes on from the state the handler left.  A
    process that stops at the throw has the runs that end there.  After
    [process.exit] nothing runs. *)
Definition step (ev : event) (s : server) : server :=
  match exited s with
  | Some _ => s
  | None =>
      match ev with
      | ClientConnects => snd ((res <- accept ;; events res) s)
      | ConnectionCloses res =>
          match connections s !! res with
          | Some c =>
              if closed c then s
              else snd (on_close res (with_connections (alter shut res) s))
          | None => s
          end
      | ChannelBreaks res => with_connections (alter break res) s
      | Observed obs =>
          if watching s
          then snd (for_each (chokidar watcher_options RESUME_PATH obs) on_watch_event s)
          else s
      | Interrupt => snd (on_sigint s)
      end
  end.

Definition run (evs : list event) (s : server) : server :=
  foldl (λ s ev, step ev s) s evs.

(** The process once server.js has been loaded: no client, the watcher
    open.  The callback of [app.listen] (lines 270-275) only writes to the
    console and is left out. *)
Definition boot : server := ServerState ∅ [] 0 [] true None.

(** *** The PDF endpoint *)

(** The template literal of lines 154-176: its four literal parts, around
    [githubCss], [customCss] and [contentHtml]. *)
Definition lines (l : list string) : string := String.concat newline l.

Definition template_head : string :=
  lines [ EmptyString;
          "<!DOCTYPE html>";
          "<html lang=" +:+ dq +:+ "en" +:+ dq +:+ ">";
          "<head>";
          "  <meta charset=" +:+ dq +:+ "UTF-8" +:+ dq +:+ ">";
          "  <meta name=" +:+ dq +:+ "viewport" +:+ dq +:+ " content=" +:+ dq
            +:+ "width=device-width, initial-scale=1.0" +:+ dq +:+ ">";
          "  <title>John Karpathy - Resume</title>";
          "  <link rel=" +:+ dq +:+ "preconnect" +:+ dq +:+ " href=" +:+ dq
            +:+ "https://fonts.googleapis.com" +:+ dq +:+ ">";
          "  <link rel=" +:+ dq +:+ "preconnect" +:+ dq +:+ " href=" +:+ dq
            +:+ "https://fonts.gstatic.com" +:+ dq +:+ " crossorigin>";
          "  <link href=" +:+ dq
            +:+ "https://fonts.googleapis.com/css2?family=Inter:wght@400;600&display=swap"
            +:+ dq +:+ " rel=" +:+ dq +:+ "stylesheet" +:+ dq +:+ ">";
          "  <style>";
          "    " ].

Definition template_between : string := lines [ EmptyString; "    " ].

Definition template_middle : string :=
  lines [ EmptyString;
          "  </style>";
          "</head>";
          "<body>";
          "  <div class=" +:+ dq +:+ "container" +:+ dq +:+ ">";
          "    <article class=" +:+ dq +:+ "markdown-body" +:+ dq +:+ ">";
          "      " ].

Definition template_tail : string :=
  lines [ EmptyString;
          "    </article>";
          "  </div>";
          "</body>";
          "</html>" ].

Definition fullHtml (githubCss customCss contentHtml : string) : string :=
  template_head +:+ githubCss +:+ template_between +:+ customCss +:+ template_middle
  +:+ contentHtml +:+ template_tail.

(** Lines 140-176: what the handler computes before it turns to the
    browser. *)
Definition assemble (disk : gmap string string) : settled string :=
  match readFileSync disk RESUME_PATH with
  | Rejected e => Rejected e
  | Fulfilled markdown =>
      match marked markdown with
      | Rejected e => Rejected e
      | Fulfilled contentHtml =>
          match readFileSync disk github_css_path with
          | Rejected e => Rejected e
          | Fulfilled githubCss =>
              match readFileSync disk custom_css_path with
              | Rejected e => Rejected e
              | Fulfilled customCss => Fulfilled (fullHtml githubCss customCss contentHtml)
              end
          end
      end
  end.

(** One request to /api/generate-pdf: the disk it finds and the awaited
    calls the environment makes fail for it. *)
Record request : Type := Request {
  disk : gmap string string;
  fault : awaited → option string;
}.

(** What the handler works on: the automation layer and the console. *)
Record node : Type := Node {
  chrome : chromium;
  output : list (Client.level * string);
}.

Definition on_chrome {A} (m : js chromium A) : js node A := λ n,
  let '(r, w) := m (chrome n) in (r, Node w (output n)).
Definition log (l : Client.level) (msg : string) : js node unit :=
  modify (λ n, Node (chrome n) (output n ++ [(l, msg)])).

(** The stages of one request; the handler is suspended between two
    stages, at an [await]. *)
Inductive stage : Type :=
  | Accepted
  | Launched (html : string) (pid : nat)
  | PageOpened (html : string) (pid : nat)
  | ViewportSet (html : string) (pid : nat)
  | ContentSet (pid : nat)
  | Printed (pid : nat) (bytes : string)
  | Responded (r : http_response).

(** The [try] block of the handler of GET /api/generate-pdf (lines
    137-216), from one [await] to the next. *)
Definition advance (req : request) (st : stage) : js node stage :=
  match st with
  | Accepted =>
      log Client.Log "Starting PDF generation..." ;;;
      html <- await (assemble (disk req)) ;;
      browser <- on_chrome (match fault req ALaunch with
                            | None => launch
                            | Some e => failed_launch e
                            end) ;;
      ret (Launched html browser)
  | Launched html browser =>
      on_chrome (attempt (fault req ANewPage) browser NewPage (newPage browser)) ;;;
      ret (PageOpened html browser)
  | PageOpened html browser =>
      on_chrome (attempt (fault req ASetViewport) browser (SetViewport 720 960 1)
                   (setViewport browser 720 960 1)) ;;;
      ret (ViewportSet html browser)
  | ViewportSet html browser =>
      on_chrome (attempt (fault req ASetContent) browser (SetContent html)
                   (setContent browser html)) ;;;
      ret (ContentSet browser)
  | ContentSet browser =>
      bytes <- on_chrome (pdf browser print_options) ;;
      ret (Printed browser bytes)
  | Printed browser bytes =>
      on_chrome (attempt (fault req AClose) browser CloseBrowser (close browser)) ;;;
      log Client.Log "✅ PDF generated successfully" ;;;
      ret (Responded (send_pdf bytes))
  | Responded r => ret (Responded r)
  end.

(** The [catch] of the handler (lines 217-220). *)
Definition resume (req : request) (st : stage) (n : node) : stage * node :=
  match advance req st n with
  | (Fulfilled st', n') => (st', n')
  | (Rejected error, n') =>
      (Responded (json_error "Failed to generate PDF"),
       Node (chrome n') (output n' ++ [(Client.Error, "❌ PDF generation error: " +:+ error)]))
  end.

Fixpoint drive (fuel : nat) (req : request) (st : stage) (n : node) : stage * node :=
  match fuel with
  | 0 => (st, n)
  | S fuel' => let '(st', n') := resume req st n in drive fuel' req st' n'
  end.

(** One request run on its own, from acceptance to the answer (six
    resumptions at most). *)
Definition generate_pdf (req : request) (n : node) : stage * node :=
  drive 6 req Accepted n.

(** The calls a request run on its own has issued. *)
Definition issued (req : request) (n : node) : list (nat * call) :=
  drop (length (calls (chrome n))) (calls (chrome (snd (generate_pdf req n)))).

(** Two requests in flight on the one event loop: [true] resumes the
    first, [false] the second. *)
Fixpoint interleave (a b : request) (schedule : list bool)
    (sa sb : stage) (n : node) : stage * stage * node :=
  match schedule with
  | [] => (sa, sb, n)
  | true :: rest =>
      let '(sa', n') := resume a sa n in interleave a b rest sa' sb n'
  | false :: rest =>
      let '(sb', n') := resume b sb n in interleave a b rest sa sb' n'
  end.

(** *** Notions used to state and prove the independence of exports *)

(** What becomes of a request: the bytes of its PDF, or the reason it
    failed. *)
Definition outcome (req : request) : settled string :=
  match assemble (disk req) with
  | Rejected e => Rejected e
  | Fulfilled html =>
      match fault req ALaunch with Some e => Rejected e | None =>
      match fault req ANewPage with Some e => Rejected e | None =>
      match fault req ASetViewport with Some e => Rejected e | None =>
      match fault req ASetContent with Some e => Rejected e | None =>
      match print_to_pdf html print_options with Rejected e => Rejected e | Fulfilled bytes =>
      match fault req AClose with Some e => Rejected e | None =>
      Fulfilled bytes
      end end end end end end
  end.

(** How many calls of the automation layer a request run on its own gets
    to issue once its document is [html]. *)
Definition reach (req : request) (html : string) : nat :=
  match fault req ALaunch with Some _ => 1 | None =>
  match fault req ANewPage with Some _ => 2 | None =>
  match fault req ASetViewport with Some _ => 3 | None =>
  match fault req ASetContent with Some _ => 4 | None =>
  match print_to_pdf html print_options with Rejected _ => 5 | Fulfilled _ => 6
  end end end end end.

(** The answer a request owes. *)
Definition answer (req : request) : http_response :=
  match outcome req with
  | Fulfilled bytes => send_pdf bytes
  | Rejected _ => json_error "Failed to generate PDF"
  end.

(** The request goes through: its document is [html], its PDF [bytes]. *)
Definition succeeds (req : request) (html bytes : string) : Prop :=
  assemble (disk req) = Fulfilled html ∧
  (∀ a, fault req a = None) ∧
  print_to_pdf html print_options = Fulfilled bytes.

(** The calls one successful export sends to its browser. *)
Definition export_calls (html : string) : list call :=
  [Launch; NewPage; SetViewport 720 960 1; SetContent html; PrintPdf print_options;
   CloseBrowser].

(** How far a request has come. *)
Definition rank (st : stage) : nat :=
  match st with
  | Accepted => 0
  | Launched _ _ => 1
  | PageOpened _ _ => 2
  | ViewportSet _ _ => 3
  | ContentSet _ => 4
  | Printed _ _ => 5
  | Responded _ => 6
  end.

(** The browser of an export after [n] of its calls; none before the launch
    and after the close. *)
Definition browser_at (n : nat) (html : string) : option browser :=
  match n with
  | 1 => Some (Browser false None None)
  | 2 => Some (Browser true None None)
  | 3 => Some (Browser true (Some (720, 960, 1)) None)
  | 4 | 5 => Some (Browser true (Some (720, 960, 1)) (Some html))
  | _ => None
  end.

(** Process [pid] was started after [base] processes, has received the
    first [n] calls of an export of [html] and nothing else, and is in the
    state these calls lead to. *)
Definition owns (base pid n : nat) (html : string) (w : chromium) : Prop :=
  base ≤ pid ∧ pid < spawned w ∧
  processes w !! pid = browser_at n html ∧
  calls_of pid w = take n (export_calls html).

(** The awaited calls behind a request that has come as far as [n]. *)
Definition cleared (n : nat) (req : request) : Prop :=
  (1 ≤ n → fault req ALaunch = None) ∧
  (2 ≤ n → fault req ANewPage = None) ∧
  (3 ≤ n → fault req ASetViewport = None) ∧
  (4 ≤ n → fault req ASetContent = None).

(** What holds of a request at stage [st] whose process number, if it has
    used one, is [own]. *)
Definition task_ok (base : nat) (req : request) (st : stage)
    (own : option nat) (w : chromium) : Prop :=
  match st with
  | Accepted => own = None
  | Launched html pid =>
      own = Some pid ∧ assemble (disk req) = Fulfilled html ∧ cleared 1 req ∧
      owns base pid 1 html w
  | PageOpened html pid =>
      own = Some pid ∧ assemble (disk req) = Fulfilled html ∧ cleared 2 req ∧
      owns base pid 2 html w
  | ViewportSet html pid =>
      own = Some pid ∧ assemble (disk req) = Fulfilled html ∧ cleared 3 req ∧
      owns base pid 3 html w
  | ContentSet pid =>
      own = Some pid ∧
      ∃ html, assemble (disk req) = Fulfilled html ∧ cleared 4 req ∧ owns base pid 4 html w
  | Printed pid bytes =>
      own = Some pid ∧
      ∃ html, assemble (disk req) = Fulfilled html ∧ cleared 4 req ∧
              print_to_pdf html print_options = Fulfilled bytes ∧ owns base pid 5 html w
  | Responded r =>
      r = answer req ∧
      match own with
      | None => ∃ e, assemble (disk req) = Rejected e
      | Some pid =>
          ∃ html k, assemble (disk req) = Fulfilled html ∧
                    base ≤ pid ∧ pid < spawned w ∧
                    calls_of pid w = take k (export_calls html) ∧
                    (∀ bytes, succeeds req html bytes → processes w !! pid = None ∧ k = 6)
      end
  end.
End Endpoints.

(** Every call on record went to a process number that has been used. *)
Definition tidy (w : chromium) : Prop :=
  Forall (λ e, e.1 < spawned w) (calls w).

(** From [w] to [w'] nothing changed for any process but [own]. *)
Definition untouched_but (own : option nat) (w w' : chromium) : Prop :=
  spawned w ≤ spawned w' ∧
  ∀ p, own ≠ Some p →
       processes w' !! p = processes w !! p ∧ calls_of p w' = calls_of p w.

Definition turns (who : bool) (schedule : list bool) : nat :=
  length (filter (λ b, b = who) schedule).

(** *** Notions used to state the properties of the event stream *)

(** The handles of [l] up to the first one a write to which throws: the
    clients a [forEach] over [l] gets to write to. *)
Fixpoint served (s : server) (l : list nat) : list nat :=
  match l with
  | [] => []
  | h :: rest =>
      match connections s !! h with
      | Some c => if throws c then [] else h :: served s rest
      | None => []
      end
  end.

(** The invariant of the [clients] array and the shape of every stream:
    handles are registered once, a registered handle is an open
    connection, every connection was accepted, and what has gone out on it
    is the "connected" frame followed by "update" frames. *)
Definition consistent (s : server) : Prop :=
  NoDup (clients s) ∧
  (∀ h, h ∈ clients s → ∃ c, connections s !! h = Some c ∧ closed c = false) ∧
  (∀ h c, connections s !! h = Some c →
     h < accepted s ∧ ∃ n, written c = frame Connected :: replicate n (frame Update)).

#[export] Instance level_eq_dec : EqDecision Client.level.
Proof. solve_decision. Defined.

(** The "File changed" lines of a console. *)
Definition change_lines (path : string) (c : list (Client.level * string)) : nat :=
  length (filter (λ l, l = (Client.Log, "File changed: " +:+ path)) c).

End Server.

(** ** The rest of the client: timers, the event source, page load *)

Module Wiring.
Import Client.

(** A call of an [async] function that is not awaited, or a callback run by
    the event loop: what it throws reaches nobody, what it did stays. *)
Definition detached (m : js page unit) : js page unit := λ p,
  (Fulfilled tt, snd (m p)).

(** The next [n] pending timers fire, oldest first. *)
Fixpoint fire_timers (n : nat) : js page unit :=
  match n with
  | 0 => ret tt
  | S n' => detached fire_timer ;;; fire_timers n'
  end.

(** Every pending timer fires (the callbacks of client.js set no timer). *)
Definition drain : js page unit := λ p, fire_timers (length (timers p)) p.

(** A burst of reloads: each [loadMarkdown()] has resumed, with its own
    outcome of the network, before any timer fires. *)
Definition burst (nets : list network) : js page unit :=
  for_each nets (λ net, detached (loadMarkdown net)).

(** The body a [loadMarkdown] gets to see, if the fetch and the parse go
    through, and the timer it then sets (lines 4-5, 12-15). *)
Definition parsed_body (net : network) : list json :=
  match net "/api/markdown" with
  | Fulfilled r =>
      match json_body r with
      | Fulfilled data => [data]
      | Rejected _ => []
      end
  | Rejected _ => []
  end.

Definition timer_of (data : json) : nat * callback :=
  (100, ShowContent (Some "markdown-content") data).

(** What the callback of lines 12-15 makes of the content element. *)
Definition show (data : json) (el : element) : element :=
  match get_field data "html" with
  | Fulfilled html => set_opacity "1" (set_innerHTML (to_markup html) el)
  | Rejected _ => el
  end.

(** A message of the event stream as [JSON.parse] hands it to [onmessage]. *)
Definition message (type : string) : json :=
  JObject {[ "type" := VString type ]}.

Definition updates (types : list string) : nat :=
  length (filter (λ t, t = "update") types).

(** *** The event source and the page-load handler *)

(** The one listener client.js registers. *)
Inductive listener : Type := ExportToPDF.

(** The page together with what the script has set up around it: the
    event sources it has opened, its click listeners by element, and the
    locals of the [exportToPDF] calls suspended at their [fetch]. *)
Record runtime : Type := Runtime {
  view : page;
  event_sources : list string;
  click_listeners : list (string * listener);
  in_flight : list (option string * string);
}.

Definition on_view {A} (m : js page A) : js runtime A := λ a,
  let '(r, p) := m (view a) in
  (r, Runtime p (event_sources a) (click_listeners a) (in_flight a)).

(** What an [EventSource] reports. *)
Inductive source_event : Type :=
  | Opened
  | Message (data : string)
  | Errored (error : string).

(** [setupLiveReload] (lines 62-84): a new [EventSource('/events')]. *)
Definition setupLiveReload : js runtime unit :=
  modify (λ a, Runtime (view a) (event_sources a ++ ["/events"]) (click_listeners a) (in_flight a)).

(** The three handlers [setupLiveReload] installs (lines 65-83); [parse] is
    [JSON.parse]. *)
Definition on_source_event (net : network) (parse : string → settled json)
    (ev : source_event) : js page unit :=
  match ev with
  | Opened => console_log "✅ Connected to live reload server"
  | Message raw =>
      data <- await (parse raw) ;;
      onmessage net data
  | Errored error => console_error ("❌ Live reload connection error: " +:+ error)
  end.

(** The [DOMContentLoaded] handler (lines 87-96).  [loadMarkdown()] is not
    awaited; what it does to the page once it resumes touches neither the
    event sources nor the listeners, so it is run here in one piece. *)
Definition init (net : network) : js runtime unit :=
  on_view (detached (loadMarkdown net)) ;;;
  setupLiveReload ;;;
  exportBtn <- on_view (getElementById "export-pdf-btn") ;;
  match exportBtn with
  | Some id =>
      modify (λ a, Runtime (view a) (event_sources a)
                       (click_listeners a ++ [(id, ExportToPDF)]) (in_flight a))
  | None => ret tt
  end.

(** A listener runs: [exportToPDF] up to its first [await]. *)
Definition run_listener (l : listener) : js runtime unit := λ a,
  match l with
  | ExportToPDF =>
      match exportToPDF_begin (view a) with
      | (Fulfilled locals, p) =>
          (Fulfilled tt, Runtime p (event_sources a) (click_listeners a) (in_flight a ++ [locals]))
      | (Rejected _, p) =>
          (Fulfilled tt, Runtime p (event_sources a) (click_listeners a) (in_flight a))
      end
  end.

(** A click on the element [id]: a disabled control gets no click event. *)
Definition click (id : string) : js runtime unit := λ a,
  match elements (view a) !! id with
  | Some el =>
      if disabled el then (Fulfilled tt, a)
      else for_each ((filter (λ l, l.1 = id) (click_listeners a)).*2) run_listener a
  | None => (Fulfilled tt, a)
  end.

(** The request of the oldest suspended [exportToPDF] settles. *)
Definition settle_export (outcome : settled response) : js runtime unit := λ a,
  match in_flight a with
  | [] => (Fulfilled tt, a)
  | locals :: rest =>
      (Fulfilled tt,
       Runtime (snd (exportToPDF_settle (fst locals) (snd locals) outcome (view a)))
           (event_sources a) (click_listeners a) rest)
  end.

End Wiring.


(** ** A response on its way to the client *)

Module Http.

(** What [response.json()] makes of a body the server sent. *)
Definition json_of (p : Server.payload) : settled Client.json :=
  match p with
  | Server.HtmlEnvelope html => Fulfilled (Client.JObject {[ "html" := Client.VString html ]})
  | Server.ErrorEnvelope error => Fulfilled (Client.JObject {[ "error" := Client.VString error ]})
  | Server.PdfDocument _ => Rejected "SyntaxError"
  end.

Definition blob_of (p : Server.payload) : settled string :=
  match p with
  | Server.PdfDocument bytes => Fulfilled bytes
  | Server.HtmlEnvelope _ | Server.ErrorEnvelope _ => Fulfilled "{}"
  end.

(** The [Response] the browser's [fetch] resolves to: [ok] is a status in
    the range 200-299. *)
Definition received (r : Server.http_response) : Client.response :=
  Client.Response (bool_decide (200 ≤ Server.status r < 300))
                  (json_of (Server.body r)) (blob_of (Server.body r)).

(** The content endpoint behind the network: the page asks, the server
    answers from the disk as it is. *)
Definition content_service (marked : string → settled string) (dirname : string)
    (disk : gmap string string) (s : Server.server) : Client.network := λ _,
  match fst (Server.get_markdown marked dirname disk s) with
  | Fulfilled r => Fulfilled (received r)
  | Rejected e => Rejected e
  end.

End Http.

(** ** Sample inputs *)

Module Sample.

Definition content : Client.element :=
  Client.Element "<p>Loading resume...</p>" EmptyString false "1".
Definition button : Client.element :=
  Client.Element EmptyString "📄 Export as PDF" false EmptyString.

Definition page : Client.page :=
  Client.Page {[ "markdown-content" := content; "export-pdf-btn" := button ]}
              [] [] [] [] [] [].

(** No server is listening: every [fetch] rejects. *)
Definition offline : Client.network := λ _, Rejected "TypeError: Failed to fetch".

(** The server answers every request with status 500 and an error envelope. *)
Definition failing : Client.network := λ _,
  Fulfilled (Client.Response false
               (Fulfilled (Client.JObject {[ "error" := Client.VString "Failed to generate PDF" ]}))
               (Fulfilled "{}")).

Definition marked (text : string) : settled string :=
  Fulfilled ("<p>" +:+ text +:+ "</p>").
Definition print_to_pdf (html : string) (options : Server.pdf_options) : settled string :=
  Fulfilled ("%PDF-1.4 " +:+ html).

(** The server's own page as a navigation would load it. *)
Definition navigate (address : string) : settled string :=
  Fulfilled "<html><body>resume</body></html>".

Definition dirname : string := "/home/user/resume".

Definition disk : gmap string string :=
  {[ Server.RESUME_PATH dirname := "Hello";
     Server.github_css_path dirname := ".markdown-body{}";
     Server.custom_css_path dirname := ".container{}" ]}.
Definition edited : gmap string string := <[ Server.RESUME_PATH dirname := "Hello again" ]> disk.

(** The directory without the document. *)
Definition unreadable : gmap string string := delete (Server.RESUME_PATH dirname) disk.

Definition html_of (text : string) : string :=
  Server.fullHtml ".markdown-body{}" ".container{}" ("<p>" +:+ text +:+ "</p>").

(** Requests for which no call of the automation layer fails, and one for
    which the new page cannot be opened. *)
Definition request_of (disk : gmap string string) : Server.request :=
  Server.Request disk (λ _, None).
Definition crashing : Server.request :=
  Server.Request disk (λ a, match a with
                            | Server.ANewPage => Some "Protocol error"
                            | _ => None
                            end).

(** A printer that fails. *)
Definition jammed (html : string) (options : Server.pdf_options) : settled string :=
  Rejected "Printing failed".

Definition fresh : Server.chromium := Server.Chromium ∅ 0 [].
Definition idle : Server.node := Server.Node fresh [].

Definition alternating : list bool :=
  [true; false; true; false; true; false; true; false; true; false; true; false].

Definition session : list Server.event :=
  [Server.ClientConnects; Server.Observed Server.Modified; Server.ConnectionCloses 0].

(** Three clients on the stream; a write to the second one throws. *)
Definition crowd : Server.server :=
  Server.run dirname
    [Server.ClientConnects; Server.ClientConnects; Server.ClientConnects;
     Server.ChannelBreaks 1]
    Server.boot.

(** A server that answers with the rendered document. *)
Definition serving (html : string) : Client.network := λ _,
  Fulfilled (Client.Response true
               (Fulfilled (Client.JObject {[ "html" := Client.VString html ]}))
               (Fulfilled "%PDF-1.4")).

(** A server whose body is the JSON literal [null]. *)
Definition serving_null : Client.network := λ _,
  Fulfilled (Client.Response true (Fulfilled Client.JNull) (Fulfilled "%PDF-1.4")).

(** A page without the elements the script looks up. *)
Definition bare : Client.page := Client.Page ∅ [] [] [] [] [] [].

Definition loaded : Wiring.runtime :=
  Wiring.Runtime page ["/events"] [("export-pdf-btn", Wiring.ExportToPDF)] [].

End Sample.

(** * Properties *)

(** ** The client *)

Section ClientFacts.
Import Client.

(** Unfolding the monad and the page primitives. *)
Ltac run_js :=
  repeat (cbn [fst snd elements console alerts windows timers object_urls requests
               with_elements with_console with_alerts with_windows with_timers
               with_object_urls with_requests] in *
          || unfold bind, ret, throw, await, try_catch, modify, gets in *
          || unfold getElementById, assign, read, console_log, console_error, alert,
                    setTimeout, createObjectURL, window_open, fetch in * ).

Lemma lookup_alter_present (f : element → element) (id : string)
    (m : gmap string element) (e : element) :
  m !! id = Some e → alter f id m !! id = Some (f e).
Proof. intros H. by rewrite lookup_alter_eq, H. Qed.

(** The [catch] branch of [loadMarkdown]: with the content element on the
    page it writes the error markup and returns normally. *)
Lemma loadMarkdown_catch (error : string) (p : page) (el : element) :
  elements p !! "markdown-content" = Some el →
  ∃ p', (console_error ("Error loading markdown: " +:+ error) ;;;
         target <- getElementById "markdown-content" ;;
         assign target (set_innerHTML error_markup)) p = (Fulfilled tt, p') ∧
        elements p' !! "markdown-content" = Some (set_innerHTML error_markup el) ∧
        timers p' = timers p ∧
        console p' = console p ++ [(Error, "Error loading markdown: " +:+ error)].
Proof.
  intros Hel. run_js. rewrite Hel. run_js.
  eexists; split; [reflexivity|]. cbn.
  split; [by apply lookup_alter_present|done].
Qed.

(** The normal path, for comparison: a response whose body parses to an
    object is shown once the timer fires, whatever its [ok] flag; the [html]
    property of an error envelope is [undefined]. *)
Lemma loadMarkdown_shows_content (net : network) (p : page) (el : element)
    (r : response) (fields : gmap string js_value) :
  elements p !! "markdown-content" = Some el →
  timers p = [] →
  net "/api/markdown" = Fulfilled r →
  json_body r = Fulfilled (JObject fields) →
  ∃ p' el', (loadMarkdown net ;;; fire_timer) p = (Fulfilled tt, p') ∧
            elements p' !! "markdown-content" = Some el' ∧
            innerHTML el' = to_markup (default VUndefined (fields !! "html")) ∧
            opacity el' = "1".
Proof.
  intros Hel Htim Hnet Hjson. unfold loadMarkdown, fire_timer, run_callback.
  run_js. rewrite Hnet, Hjson. run_js. rewrite Hel. run_js. rewrite Htim. cbn.
  run_js. eexists _, _. split; [reflexivity|]. cbn.
  rewrite !lookup_alter_eq, Hel. done.
Qed.

Lemma loadMarkdown_requests (net : network) (p : page) :
  requests (snd (loadMarkdown net p)) = requests p ++ ["/api/markdown"].
Proof.
  unfold loadMarkdown. run_js.
  destruct (net "/api/markdown") as [r|e]; run_js.
  - destruct (json_body r) as [d|e]; run_js;
      destruct (elements p !! "markdown-content") eqn:Hel; run_js;
      rewrite ?Hel; run_js; done.
  - destruct (elements p !! "markdown-content") eqn:Hel; run_js; done.
Qed.

(** The button after the request has settled, whatever the outcome: on any
    page that still holds the button, [exportToPDF_settle] returns normally,
    writes [originalText] back and clears [disabled]; it alerts exactly when
    it took the [catch] branch. *)
Lemma exportToPDF_settle_button (originalText : string) (outcome : settled response)
    (p : page) (btn : element) :
  elements p !! "export-pdf-btn" = Some btn →
  ∃ p', exportToPDF_settle (Some "export-pdf-btn") originalText outcome p = (Fulfilled tt, p') ∧
        elements p' !! "export-pdf-btn"
          = Some (set_disabled false (set_textContent originalText btn)) ∧
        match outcome with
        | Fulfilled (Response true _ (Fulfilled blob)) =>
            alerts p' = alerts p ∧
            windows p' = windows p ++ [(ObjectURL (length (object_urls p)), "_blank")] ∧
            object_urls p' = object_urls p ++ [blob]
        | _ => alerts p' = alerts p ++ [export_alert] ∧ windows p' = windows p
        end.
Proof.
  intros Hbtn. unfold exportToPDF_settle.
  destruct outcome as [[[] js [blob|reason]]|reason]; run_js;
    (eexists; split; [reflexivity|]); run_js;
    (split; [|done]);
    rewrite lookup_alter_eq, lookup_alter_eq, Hbtn; done.
Qed.

(** C7: when the export request fails (fetch error or non-ok response), the
    client alerts and re-enables the export control: its text is the one it
    had when [exportToPDF] was called and [disabled] is false. *)
Theorem exportToPDF_failure_alerts (net : network) (p : page) (btn : element)
    (Hbtn : elements p !! "export-pdf-btn" = Some btn)
    (Hfail : export_request_fails (net "/api/generate-pdf") = true) :
  ∃ p' btn', exportToPDF net p = (Fulfilled tt, p') ∧
        alerts p' = alerts p ++ [export_alert] ∧
        elements p' !! "export-pdf-btn" = Some btn' ∧
        textContent btn' = textContent btn ∧
        disabled btn' = false.
Proof.
  unfold exportToPDF, exportToPDF_begin. run_js. repeat (rewrite Hbtn; run_js).
  match goal with |- context [exportToPDF_settle _ _ _ ?q] => set (p1 := q) end.
  assert (H1 : elements p1 !! "export-pdf-btn"
               = Some (set_disabled true (set_textContent loading_label btn))).
  { subst p1. cbn. by rewrite lookup_alter_eq, lookup_alter_eq, Hbtn. }
  destruct (exportToPDF_settle_button (textContent btn) (net "/api/generate-pdf") p1 _ H1)
    as (p' & Hrun & Hlook & Hout).
  exists p', (set_disabled false (set_textContent (textContent btn)
                (set_disabled true (set_textContent loading_label btn)))).
  split; [exact Hrun|]. split; [|by rewrite Hlook].
  unfold export_request_fails in Hfail.
  destruct (net "/api/generate-pdf") as [[[] js bl]|reason]; try done;
    by destruct Hout as [-> _].
Qed.

(** C10: an invocation of [exportToPDF] on a page with the export button.
    While the request is in flight the button is disabled and shows the
    loading label.  Once the request has settled, on whatever the page has
    become in the meantime as long as it holds the button, the button's text
    is the original one and [disabled] is false; on success the blob has
    been opened in a new tab. *)
Theorem exportToPDF_button_states (p : page) (btn : element)
    (Hbtn : elements p !! "export-pdf-btn" = Some btn) :
  ∃ p1 b1,
    exportToPDF_begin p = (Fulfilled (Some "export-pdf-btn", textContent btn), p1) ∧
    elements p1 !! "export-pdf-btn" = Some b1 ∧
    disabled b1 = true ∧ textContent b1 = loading_label ∧
    ∀ (outcome : settled response) (p2 : page) (b2 : element),
      elements p2 !! "export-pdf-btn" = Some b2 →
      ∃ p3 b3,
        exportToPDF_settle (Some "export-pdf-btn") (textContent btn) outcome p2
          = (Fulfilled tt, p3) ∧
        elements p3 !! "export-pdf-btn" = Some b3 ∧
        textContent b3 = textContent btn ∧ disabled b3 = false ∧
        (∀ blob js, outcome = Fulfilled (Response true js (Fulfilled blob)) →
           windows p3 = windows p2 ++ [(ObjectURL (length (object_urls p2)), "_blank")]).
Proof.
  unfold exportToPDF_begin. run_js. repeat (rewrite Hbtn; run_js).
  eexists _, (set_disabled true (set_textContent loading_label btn)).
  split; [reflexivity|]. cbn.
  split; [by rewrite lookup_alter_eq, lookup_alter_eq, Hbtn|].
  do 2 (split; [done|]).
  intros outcome p2 b2 Hb2.
  destruct (exportToPDF_settle_button (textContent btn) outcome p2 b2 Hb2)
    as (p3 & Hrun & Hlook & Hout).
  exists p3, (set_disabled false (set_textContent (textContent btn) b2)).
  do 4 (split; [done|]).
  intros blob js ->. by destruct Hout as (_ & -> & _).
Qed.
End ClientFacts.


(** ** The event stream *)

Section StreamFacts.
Import Server.
Variable dirname : string.

Abbreviation step := (step dirname).
Abbreviation run := (run dirname).

Ltac run_server :=
  repeat progress
    (unfold bind, ret, gets, modify, console_log, console_error, setHeader, accept,
       with_connections, with_clients, with_console;
     cbn [fst snd connections clients accepted console watching exited]).

Lemma write_open (res : nat) (chunk : string) (c : connection) (s : server) :
  connections s !! res = Some c → throws c = false → closed c = false →
  write res chunk s = (Fulfilled tt, with_connections (<[res := add_chunk chunk c]>) s).
Proof. intros Hc Ht Hcl. unfold write. by rewrite Hc, Ht, Hcl. Qed.

Lemma write_throws (res : nat) (chunk : string) (c : connection) (s : server) :
  connections s !! res = Some c → throws c = true →
  write res chunk s = (Rejected "write failed", s).
Proof. intros Hc Ht. unfold write. by rewrite Hc, Ht. Qed.

(** A request to /events, in closed form. *)
Lemma events_spec (s : server) :
  (res <- accept ;; events res) s =
    (Fulfilled tt,
     ServerState
       (<[accepted s := Connection [("Content-Type", "text/event-stream");
                                    ("Cache-Control", "no-cache");
                                    ("Connection", "keep-alive");
                                    ("Access-Control-Allow-Origin", "*")]
                                   [frame Connected] false false]> (connections s))
       (clients s ++ [accepted s]) (S (accepted s))
       (console s ++ [(Client.Log, "Client connected. Total clients: "
                                   +:+ pretty (length (clients s ++ [accepted s])))])
       (watching s) (exited s)).
Proof.
  unfold events. run_server. rewrite !alter_insert_eq. unfold write. run_server.
  rewrite lookup_insert_eq. cbn. run_server. by rewrite insert_insert_eq.
Qed.

Lemma on_close_spec (res : nat) (s : server) :
  on_close res s =
    (Fulfilled tt,
     ServerState (connections s) (filter (λ client, client ≠ res) (clients s)) (accepted s)
       (console s ++ [(Client.Log, "Client disconnected. Total clients: "
                         +:+ pretty (length (filter (λ client, client ≠ res) (clients s))))])
       (watching s) (exited s)).
Proof. unfold on_close. by run_server. Qed.

Lemma served_ext (s s' : server) (l : list nat) :
  (∀ h, throws <$> connections s' !! h = throws <$> connections s !! h) →
  served s' l = served s l.
Proof.
  intros H. induction l as [|h l IH]; [done|]. cbn [served].
  specialize (H h). destruct (connections s' !! h) as [c'|], (connections s !! h) as [c|];
    cbn in H; simplify_eq; [|done]. rewrite H. by rewrite IH.
Qed.

Lemma served_sublist (s : server) (l : list nat) (h : nat) : h ∈ served s l → h ∈ l.
Proof.
  induction l as [|x l IH]; cbn [served]; [done|].
  destruct (connections s !! x) as [c|]; [|by intros ?%elem_of_nil].
  destruct (throws c); [by intros ?%elem_of_nil|].
  intros [->|?]%elem_of_cons; [left|right; auto].
Qed.

(** The loop of [notifyClients] over a list of open connections. *)
Lemma for_each_write (l : list nat) :
  ∀ s : server,
    NoDup l →
    (∀ h, h ∈ l → ∃ c, connections s !! h = Some c ∧ closed c = false) →
    ∃ r s', for_each l (λ client, write client (frame Update)) s = (r, s') ∧
            clients s' = clients s ∧ accepted s' = accepted s ∧ console s' = console s ∧
            watching s' = watching s ∧ exited s' = exited s ∧
            (∀ h, h ∉ served s l → connections s' !! h = connections s !! h) ∧
            (∀ h c, h ∈ served s l → connections s !! h = Some c →
                    connections s' !! h = Some (add_chunk (frame Update) c)) ∧
            (r = Fulfilled tt ↔ served s l = l).
Proof.
  induction l as [|x l IH]; intros s Hnd Hopen.
  - exists (Fulfilled tt), s. cbn. repeat split; try done. intros h c []%elem_of_nil.
  - apply NoDup_cons in Hnd as [Hx Hnd].
    destruct (Hopen x) as (c & Hc & Hcl); [left|].
    cbn [for_each served]. rewrite Hc. unfold bind at 1.
    destruct (throws c) eqn:Ht.
    + rewrite (write_throws x _ c s Hc Ht).
      exists (Rejected "write failed"), s. repeat split; try done.
      intros h c' []%elem_of_nil.
    + rewrite (write_open x _ c s Hc Ht Hcl).
      set (s1 := with_connections (<[x := add_chunk (frame Update) c]>) s).
      destruct (IH s1) as (r & s' & Hrun & ? & ? & ? & ? & ? & Hout & Hin & Hr); [done|..].
      { intros h Hh. destruct (Hopen h) as (c' & Hc' & Hcl'); [by right|].
        exists c'. split; [|done]. cbn. rewrite lookup_insert_ne; [done|]. by intros ->. }
      assert (Hserved : served s1 l = served s l).
      { apply served_ext. intros h. cbn. destruct (decide (h = x)) as [->|].
        - rewrite lookup_insert_eq, Hc. cbn. done.
        - by rewrite lookup_insert_ne. }
      rewrite Hserved in *.
      exists r, s'. split; [exact Hrun|]. do 5 (split; [done|]). split; [|split].
      * intros h Hh. apply not_elem_of_cons in Hh as [Hne Hh].
        rewrite (Hout h Hh). cbn. by rewrite lookup_insert_ne.
      * intros h c' [->|Hh]%elem_of_cons Hc'.
        -- assert (c' = c) as -> by congruence.
           rewrite Hout.
           ++ cbn. by rewrite lookup_insert_eq.
           ++ intros ?%served_sublist. done.
        -- apply Hin; [done|]. cbn. rewrite lookup_insert_ne; [done|].
           intros ->. apply served_sublist in Hh. done.
      * rewrite Hr. split; [by intros ->|by intros [= ->]].
Qed.

(** [notifyClients] on a process in a consistent state. *)
Lemma notifyClients_spec (s : server) :
  consistent s →
  ∃ r s', notifyClients s = (r, s') ∧
          clients s' = clients s ∧ accepted s' = accepted s ∧
          console s' = console s ++ [(Client.Log, "Notifying " +:+ pretty (length (clients s))
                                                   +:+ " client(s) of update")] ∧
          watching s' = watching s ∧ exited s' = exited s ∧
          (∀ h, h ∉ served s (clients s) → connections s' !! h = connections s !! h) ∧
          (∀ h c, h ∈ served s (clients s) → connections s !! h = Some c →
                  connections s' !! h = Some (add_chunk (frame Update) c)) ∧
          (r = Fulfilled tt ↔ served s (clients s) = clients s).
Proof.
  intros (Hnd & Hopen & _). unfold notifyClients. run_server.
  set (s1 := ServerState _ _ _ _ _ _).
  destruct (for_each_write (clients s) s1 Hnd Hopen)
    as (r & s' & Hrun & ? & ? & ? & ? & ? & Hout & Hin & Hr).
  assert (Hserved : served s1 (clients s) = served s (clients s)) by by apply served_ext.
  rewrite Hserved in *.
  exists r, s'. split; [exact Hrun|]. repeat split; try done.
  - by apply Hr.
  - by apply Hr.
Qed.

Lemma update_more (c : connection) (n : nat) :
  written c = frame Connected :: replicate n (frame Update) →
  written (add_chunk (frame Update) c) = frame Connected :: replicate (S n) (frame Update).
Proof.
  intros H. cbn [written add_chunk]. rewrite H, replicate_S_end. done.
Qed.

Lemma consistent_boot : consistent boot.
Proof.
  split; [apply NoDup_nil_2|]. split.
  - intros h []%elem_of_nil.
  - intros h c Hc. cbn in Hc. by rewrite lookup_empty in Hc.
Qed.

Lemma consistent_notify (s s' : server) (r : settled unit) :
  consistent s → notifyClients s = (r, s') → consistent s'.
Proof.
  intros Hs Hrun. destruct (notifyClients_spec s Hs)
    as (r0 & s0 & Hrun0 & Hcl & Hacc & _ & _ & _ & Hout & Hin & _).
  rewrite Hrun in Hrun0. simplify_eq.
  destruct Hs as (Hnd & Hopen & Hshape).
  split; [by rewrite Hcl|]. split.
  - intros h Hh. rewrite Hcl in Hh. destruct (Hopen h Hh) as (c & Hc & Hclosed).
    destruct (decide (h ∈ served s (clients s))) as [Hs|Hs].
    + exists (add_chunk (frame Update) c). by rewrite (Hin h c Hs Hc).
    + exists c. by rewrite (Hout h Hs).
  - intros h c Hc. rewrite Hacc.
    destruct (decide (h ∈ served s (clients s))) as [Hs|Hs].
    + destruct (connections s !! h) as [c0|] eqn:Hc0.
      * rewrite (Hin h c0 Hs Hc0) in Hc. simplify_eq.
        destruct (Hshape h c0 Hc0) as (? & n & Hn). split; [done|].
        exists (S n). by apply update_more.
      * apply served_sublist in Hs. destruct (Hopen h Hs) as (? & ? & _). congruence.
    + rewrite (Hout h Hs) in Hc. by apply Hshape.
Qed.

Lemma consistent_console (s : server) (f : list (Client.level * string) → list (Client.level * string)) :
  consistent s → consistent (with_console f s).
Proof. done. Qed.

Lemma consistent_step (ev : event) (s : server) : consistent s → consistent (step ev s).
Proof.
  intros Hs. unfold Server.step. destruct (exited s); [done|].
  destruct ev as [|res|res|obs|].
  - rewrite events_spec. cbn [snd]. destruct Hs as (Hnd & Hopen & Hshape).
    assert (Hfresh : accepted s ∉ clients s).
    { intros Hin. destruct (Hopen _ Hin) as (c & Hc & _). apply Hshape in Hc as [? _]. lia. }
    split; [|split]; cbn [clients connections accepted].
    + apply NoDup_app. split; [done|]. split; [|apply NoDup_singleton].
      intros h Hh ->%list_elem_of_singleton. done.
    + intros h [Hh| ->%list_elem_of_singleton]%elem_of_app.
      * destruct (Hopen h Hh) as (c & Hc & Hcl). exists c. split; [|done].
        rewrite lookup_insert_ne; [done|]. by intros <-.
      * eexists. by rewrite lookup_insert_eq.
    + intros h c. destruct (decide (h = accepted s)) as [->|Hne].
      * rewrite lookup_insert_eq. intros [= <-]. split; [lia|]. by exists 0.
      * rewrite lookup_insert_ne by done. intros Hc.
        destruct (Hshape h c Hc) as [? ?]. split; [lia|done].
  - destruct (connections s !! res) as [c|] eqn:Hc; [|done].
    destruct (closed c) eqn:Hcl; [done|].
    rewrite on_close_spec. cbn [snd]. destruct Hs as (Hnd & Hopen & Hshape).
    unfold with_connections. cbn [clients connections accepted].
    split; [|split]; cbn [clients connections accepted].
    + by apply NoDup_filter.
    + intros h [Hne Hh]%list_elem_of_filter.
      destruct (Hopen h Hh) as (c' & Hc' & Hcl'). exists c'.
      by rewrite lookup_alter_ne.
    + intros h c'. destruct (decide (h = res)) as [->|Hne].
      * rewrite lookup_alter_eq, Hc. cbn. intros [= <-].
        destruct (Hshape res c Hc) as [? [n Hn]]. split; [done|]. by exists n.
      * rewrite lookup_alter_ne by done. apply Hshape.
  - destruct Hs as (Hnd & Hopen & Hshape). unfold with_connections.
    split; [done|]. split; cbn [clients connections accepted].
    + intros h Hh. destruct (Hopen h Hh) as (c & Hc & Hcl).
      destruct (decide (h = res)) as [->|Hne].
      * exists (break c). by rewrite lookup_alter_eq, Hc.
      * exists c. by rewrite lookup_alter_ne.
    + intros h c'. destruct (decide (h = res)) as [->|Hne].
      * rewrite lookup_alter_eq. destruct (connections s !! res) as [c|] eqn:Hc; [|done].
        cbn. intros [= <-].
        destruct (Hshape res c Hc) as [? [n Hn]]. split; [done|]. by exists n.
      * rewrite lookup_alter_ne by done. apply Hshape.
  - destruct (watching s); [|done].
    destruct obs as [| | | |error];
      cbn [chokidar watcher_options ignoreInitial for_each on_watch_event];
      [done|done| |done|by run_server].
    unfold bind at 1. unfold bind at 1. unfold console_log at 1, modify at 1.
      destruct (notifyClients _) as [r s'] eqn:Hrun.
      apply consistent_notify in Hrun; [|by apply consistent_console].
      by destruct r.
  - unfold on_sigint. by run_server.
Qed.

Lemma run_app (evs more : list event) (s : server) :
  run (evs ++ more) s = run more (run evs s).
Proof. apply foldl_app. Qed.

Lemma consistent_run (evs : list event) (s : server) : consistent s → consistent (run evs s).
Proof.
  revert s. induction evs as [|ev evs IH]; intros s Hs; [done|].
  cbn. apply IH. by apply consistent_step.
Qed.

(** Nothing is written to a connection that has closed, and it stays
    closed. *)
Lemma closed_step (ev : event) (s : server) (h : nat) (c : connection) :
  consistent s → connections s !! h = Some c → closed c = true →
  ∃ c', connections (step ev s) !! h = Some c' ∧ closed c' = true ∧ written c' = written c.
Proof.
  intros Hs Hc Hcl. pose proof Hs as (Hnd & Hopen & Hshape).
  assert (Hout : h ∉ clients s).
  { intros Hin. destruct (Hopen h Hin) as (c0 & Hc0 & Hcl0). congruence. }
  unfold Server.step. destruct (exited s); [by exists c|].
  destruct ev as [|res|res|obs|].
  - rewrite events_spec. cbn [snd connections]. exists c. split; [|done].
    rewrite lookup_insert_ne; [done|]. apply Hshape in Hc as [? _]. lia.
  - destruct (connections s !! res) as [c0|] eqn:Hc0; [|by exists c].
    destruct (closed c0) eqn:Hcl0; [by exists c|].
    rewrite on_close_spec. cbn [snd connections with_connections].
    exists c. split; [|done]. rewrite lookup_alter_ne; [done|]. intros ->. congruence.
  - cbn [connections with_connections]. destruct (decide (h = res)) as [->|Hne].
    + exists (break c). by rewrite lookup_alter_eq, Hc.
    + exists c. by rewrite lookup_alter_ne.
  - destruct (watching s); [|by exists c].
    destruct obs as [| | | |error];
      cbn [chokidar watcher_options ignoreInitial for_each on_watch_event];
      [by exists c|by exists c| |by exists c|run_server; by exists c].
    unfold bind at 1. unfold bind at 1. unfold console_log at 1, modify at 1.
      set (s1 := with_console _ s).
      destruct (notifyClients_spec s1) as (r & s' & Hrun & _ & _ & _ & _ & _ & Hsame & _);
        [by apply consistent_console|].
      rewrite Hrun. exists c. split; [|done].
      assert (connections s' !! h = Some c) as Hc'.
      { rewrite Hsame; [done|]. intros ?%served_sublist. done. }
      by destruct r.
  - unfold on_sigint. run_server. by exists c.
Qed.

Lemma closed_run (more : list event) (s : server) (h : nat) (c : connection) :
  consistent s → connections s !! h = Some c → closed c = true →
  ∃ c', connections (run more s) !! h = Some c' ∧ closed c' = true ∧ written c' = written c.
Proof.
  revert s c. induction more as [|ev more IH]; intros s c Hs Hc Hcl; [by exists c|].
  destruct (closed_step ev s h c Hs Hc Hcl) as (c1 & Hc1 & Hcl1 & Hw1).
  destruct (IH (step ev s) c1) as (c' & Hc' & Hcl' & Hw'); [by apply consistent_step|done|done|].
  exists c'. cbn. split; [done|]. split; [done|]. congruence.
Qed.

(** A response object stays in the heap. *)
Lemma connection_kept_step (ev : event) (s : server) (h : nat) :
  consistent s → is_Some (connections s !! h) → is_Some (connections (step ev s) !! h).
Proof.
  intros Hs [c Hc]. pose proof Hs as (_ & _ & Hshape).
  unfold Server.step. destruct (exited s); [by exists c|].
  destruct ev as [|res|res|obs|].
  - rewrite events_spec. cbn [snd connections]. exists c.
    rewrite lookup_insert_ne; [done|]. apply Hshape in Hc as [? _]. lia.
  - destruct (connections s !! res) as [c0|] eqn:Hc0; [|by exists c].
    destruct (closed c0) eqn:Hcl0; [by exists c|].
    rewrite on_close_spec. cbn [snd connections with_connections].
    destruct (decide (h = res)) as [->|Hne].
    + rewrite lookup_alter_eq, Hc0. by eexists.
    + rewrite lookup_alter_ne by done. by exists c.
  - cbn [connections with_connections]. destruct (decide (h = res)) as [->|Hne].
    + rewrite lookup_alter_eq, Hc. by eexists.
    + rewrite lookup_alter_ne by done. by exists c.
  - destruct (watching s); [|by exists c].
    destruct obs as [| | | |error];
      cbn [chokidar watcher_options ignoreInitial for_each on_watch_event];
      [by exists c|by exists c| |by exists c|run_server; by exists c].
    unfold bind at 1. unfold bind at 1. unfold console_log at 1, modify at 1.
      set (s1 := with_console _ s).
      destruct (notifyClients_spec s1) as (r & s' & Hrun & _ & _ & _ & _ & _ & Hsame & Hin & _);
        [by apply consistent_console|].
      rewrite Hrun.
      assert (is_Some (connections s' !! h)) as Hc'.
      { destruct (decide (h ∈ served s1 (clients s1))) as [Hd|Hd].
        - rewrite (Hin h c Hd Hc). by eexists.
        - rewrite (Hsame h Hd). by exists c. }
      by destruct r.
  - unfold on_sigint. run_server. by exists c.
Qed.

Lemma connection_kept_run (more : list event) (s : server) (h : nat) :
  consistent s → is_Some (connections s !! h) → is_Some (connections (run more s) !! h).
Proof.
  revert s. induction more as [|ev more IH]; intros s Hs Hc; [done|].
  cbn. apply IH; [by apply consistent_step|by apply connection_kept_step].
Qed.

Lemma served_all (s : server) (l : list nat) :
  (∀ h, h ∈ l → ∃ c, connections s !! h = Some c ∧ throws c = false) → served s l = l.
Proof.
  induction l as [|x l IH]; intros H; [done|]. cbn [served].
  destruct (H x) as (c & -> & ->); [left|]. rewrite IH; [done|].
  intros h Hh. apply H. by right.
Qed.

(** C5, as the code has it: [notifyClients] logs how many clients it
    notifies and writes the "update" frame to the registered connections in
    the order of registration.  A write that throws is neither caught nor
    logged: it ends the call, which then throws itself.  So exactly the
    clients registered before the first failing one have the frame appended
    to their stream, once, every other connection is as it was, and when no
    write to a registered connection throws the call returns and every
    registered client has received the frame. *)
Theorem notifyClients_delivery (s : server) (Hs : consistent s) :
  ∃ r s', notifyClients s = (r, s') ∧
          clients s' = clients s ∧
          console s' = console s ++ [(Client.Log, "Notifying " +:+ pretty (length (clients s))
                                                   +:+ " client(s) of update")] ∧
          (∀ h c, h ∈ served s (clients s) → connections s !! h = Some c →
                  ∃ c', connections s' !! h = Some c' ∧
                        written c' = written c ++ [frame Update] ∧ closed c' = false) ∧
          (∀ h, h ∉ served s (clients s) → connections s' !! h = connections s !! h) ∧
          (r = Fulfilled tt ↔ served s (clients s) = clients s) ∧
          ((∀ h, h ∈ clients s → ∃ c, connections s !! h = Some c ∧ throws c = false) →
           r = Fulfilled tt ∧
           ∀ h, h ∈ clients s →
                ∃ c c', connections s !! h = Some c ∧ connections s' !! h = Some c' ∧
                        written c' = written c ++ [frame Update]).
Proof.
  destruct (notifyClients_spec s Hs) as (r & s' & Hrun & Hcl & _ & Hcon & _ & _ & Hout & Hin & Hr).
  pose proof Hs as (_ & Hopen & _).
  exists r, s'. split; [exact Hrun|]. split; [exact Hcl|]. split; [exact Hcon|].
  split; [|split; [exact Hout|split; [exact Hr|]]].
  - intros h c Hh Hc. exists (add_chunk (frame Update) c). split; [by apply Hin|].
    split; [done|]. cbn. apply served_sublist in Hh.
    destruct (Hopen h Hh) as (c0 & Hc0 & Hcl0). congruence.
  - intros Hall. pose proof (served_all s (clients s) Hall) as Hserved.
    split; [by apply Hr|]. intros h Hh. destruct (Hall h Hh) as (c & Hc & _).
    exists c, (add_chunk (frame Update) c). split; [done|]. split; [|done].
    apply Hin; [by rewrite Hserved|done].
Qed.

End StreamFacts.
(** ** The client on the stream *)

Section LiveReloadFacts.
Import Client.

Lemma onmessage_connected (net : network) (p : page) :
  onmessage net (Server.parsed Server.Connected) p
  = (Fulfilled tt, with_console (λ c, c ++ [(Log, "🔗 Live reload connection established")]) p).
Proof. done. Qed.

Lemma onmessage_update (net : network) (p : page) :
  ∃ p', onmessage net (Server.parsed Server.Update) p = (Fulfilled tt, p') ∧
        requests p' = requests p ++ ["/api/markdown"].
Proof.
  unfold onmessage, bind, await, console_log, modify. cbn.
  eexists. split; [reflexivity|]. by rewrite loadMarkdown_requests.
Qed.

Lemma receive_updates (net : network) (n : nat) (p : page) :
  ∃ p', receive net (Server.parsed <$> replicate n Server.Update) p = (Fulfilled tt, p') ∧
        requests p' = requests p ++ replicate n "/api/markdown".
Proof.
  unfold receive. revert p. induction n as [|n IH]; intros p.
  - exists p. split; [done|]. cbn. by rewrite app_nil_r.
  - cbn [replicate fmap list_fmap for_each]. unfold bind at 1.
    destruct (onmessage_update net p) as (p1 & -> & Hreq).
    destruct (IH p1) as (p' & Hrun & Hreq').
    exists p'. split; [exact Hrun|]. rewrite Hreq', Hreq, <- app_assoc. done.
Qed.

(** The client reloads the content once for each "update" of a stream, and
    not for its "connected". *)
Lemma receive_stream (net : network) (n : nat) (p : page) :
  ∃ p', receive net (Server.parsed <$> Server.Connected :: replicate n Server.Update) p
        = (Fulfilled tt, p') ∧
        requests p' = requests p ++ replicate n "/api/markdown".
Proof.
  unfold receive. cbn [fmap list_fmap for_each]. unfold bind at 1.
  rewrite onmessage_connected.
  apply (receive_updates net n
           (with_console (λ c, c ++ [(Log, "🔗 Live reload connection established")]) p)).
Qed.
End LiveReloadFacts.


(** ** The file watcher *)

Section WatcherFacts.
Import Server.
Variable dirname : string.

Abbreviation RESUME_PATH := (RESUME_PATH dirname).
Abbreviation step := (step dirname).
Abbreviation run := (run dirname).

Ltac run_server :=
  repeat progress
    (unfold bind, ret, gets, modify, console_log, console_error, setHeader, accept,
       with_connections, with_clients, with_console;
     cbn [fst snd connections clients accepted console watching exited]).

(** The 'change' listener run on a modification. *)
Lemma observed_modified (s : server) :
  snd (for_each (chokidar watcher_options RESUME_PATH Modified) on_watch_event s)
  = snd (notifyClients
           (with_console (λ c, c ++ [(Client.Log, "File changed: " +:+ RESUME_PATH)]) s)).
Proof.
  cbn [chokidar for_each on_watch_event]. unfold bind, console_log, modify.
  by destruct (notifyClients _) as [[] ?].
Qed.

Lemma change_lines_snoc (path : string) (c : list (Client.level * string))
    (l : Client.level * string) :
  change_lines path (c ++ [l])
  = change_lines path c + (if decide (l = (Client.Log, "File changed: " +:+ path)) then 1 else 0).
Proof.
  unfold change_lines. rewrite filter_app, length_app. f_equal.
  rewrite filter_cons, filter_nil. by case_decide.
Qed.

(** What one event adds to the console in "File changed" lines, and that
    only SIGINT closes the watcher and ends the process. *)
Lemma change_lines_step (ev : event) (s : server) :
  consistent s → watching s = true → exited s = None → ev ≠ Interrupt →
  watching (step ev s) = true ∧ exited (step ev s) = None ∧
  change_lines RESUME_PATH (console (step ev s))
  = change_lines RESUME_PATH (console s) + (if decide (ev = Observed Modified) then 1 else 0).
Proof.
  intros Hs Hw He Hne. unfold Server.step. rewrite He.
  destruct ev as [|res|res|obs|]; [| | | |done].
  - rewrite decide_False by done.
    rewrite events_spec. cbn [snd watching exited console]. do 2 (split; [done|]).
    by rewrite change_lines_snoc, decide_False by (by intros [=]).
  - rewrite decide_False by done.
    destruct (connections s !! res) as [c|]; [|by rewrite Nat.add_0_r].
    destruct (closed c); [by rewrite Nat.add_0_r|].
    rewrite on_close_spec. cbn [snd watching exited console with_connections].
    do 2 (split; [done|]).
    by rewrite change_lines_snoc, decide_False by (by intros [=]).
  - rewrite decide_False by done. cbn. by rewrite Nat.add_0_r.
  - rewrite Hw.
    destruct obs as [| | | |error].
    + rewrite decide_False by done. cbn. by rewrite Nat.add_0_r.
    + rewrite decide_False by done. cbn. by rewrite Nat.add_0_r.
    + rewrite decide_True by done. rewrite observed_modified.
      set (s1 := with_console _ s).
      destruct (notifyClients_spec s1) as (r & s' & Hrun & _ & _ & Hcon & Hw' & He' & _);
        [by apply consistent_console|].
      rewrite Hrun. cbn [snd].
      split; [by rewrite Hw'|]. split; [by rewrite He'|].
      rewrite Hcon. subst s1. cbn [console with_console clients].
      rewrite change_lines_snoc, decide_False by (by intros [=]).
      rewrite change_lines_snoc, decide_True by done. lia.
    + rewrite decide_False by done. cbn. by rewrite Nat.add_0_r.
    + rewrite decide_False by done.
      cbn [chokidar for_each on_watch_event]. run_server. do 2 (split; [done|]).
      rewrite change_lines_snoc, decide_False by (by intros [=]). lia.
Qed.

Lemma change_lines_run (evs : list event) :
  ∀ s, consistent s → watching s = true → exited s = None → Interrupt ∉ evs →
       change_lines RESUME_PATH (console (run evs s))
       = change_lines RESUME_PATH (console s)
         + length (filter (λ ev, ev = Observed Modified) evs).
Proof.
  induction evs as [|ev evs IH]; intros s Hs Hw He Hno.
  - cbn. lia.
  - apply not_elem_of_cons in Hno as [Hne Hno].
    destruct (change_lines_step ev s Hs Hw He) as (Hw' & He' & Hstep); [done|].
    cbn [Server.run foldl]. change (foldl _ ?s0 evs) with (run evs s0).
    rewrite IH; [|by apply (consistent_step dirname)|done|done|done].
    rewrite Hstep, filter_cons. case_decide; cbn [length]; lia.
Qed.

(** As long as no write is made to throw, none does. *)
Lemma writes_work_step (ev : event) (s : server) :
  consistent s → (∀ res, ev ≠ ChannelBreaks res) →
  (∀ h c, connections s !! h = Some c → throws c = false) →
  ∀ h c, connections (step ev s) !! h = Some c → throws c = false.
Proof.
  intros Hs Hev Hok. unfold Server.step. destruct (exited s); [done|].
  destruct ev as [|res|res|obs|].
  - rewrite events_spec. cbn [snd connections]. intros h c.
    destruct (decide (h = accepted s)) as [->|Hne].
    + rewrite lookup_insert_eq. by intros [= <-].
    + rewrite lookup_insert_ne by done. apply Hok.
  - destruct (connections s !! res) as [c0|] eqn:Hc0; [|done].
    destruct (closed c0); [done|].
    rewrite on_close_spec. cbn [snd connections with_connections]. intros h c.
    destruct (decide (h = res)) as [->|Hne].
    + rewrite lookup_alter_eq, Hc0. cbn. intros [= <-]. cbn. by apply (Hok res).
    + rewrite lookup_alter_ne by done. apply Hok.
  - by destruct (Hev res).
  - destruct (watching s); [|done].
    destruct obs as [| | | |error]; [done|done| |done|by run_server].
    rewrite observed_modified.
    set (s1 := with_console _ s).
    destruct (notifyClients_spec s1) as (r & s' & Hrun & _ & _ & _ & _ & _ & Hout & Hin & _);
      [by apply consistent_console|].
    rewrite Hrun. cbn [snd]. intros h c Hc.
    destruct (decide (h ∈ served s1 (clients s1))) as [Hd|Hd].
    + destruct (connections s !! h) as [c0|] eqn:Hc0.
      * rewrite (Hin h c0 Hd Hc0) in Hc. simplify_eq. cbn. by apply (Hok h).
      * apply served_sublist in Hd. destruct Hs as (_ & Hopen & _).
        destruct (Hopen h Hd) as (? & ? & _). congruence.
    + rewrite (Hout h Hd) in Hc. by apply (Hok h).
  - unfold on_sigint. run_server. apply Hok.
Qed.

(** A run without SIGINT and without a failing write: the watcher stays
    open, the process runs, every write works. *)
Lemma steady_run (evs : list event) :
  Interrupt ∉ evs → (∀ res, ChannelBreaks res ∉ evs) →
  ∀ s, consistent s → watching s = true → exited s = None →
       (∀ h c, connections s !! h = Some c → throws c = false) →
       watching (run evs s) = true ∧ exited (run evs s) = None ∧
       (∀ h c, connections (run evs s) !! h = Some c → throws c = false).
Proof.
  induction evs as [|ev evs IH]; intros Hno Hwrites s Hs Hw He Hok; [done|].
  apply not_elem_of_cons in Hno as [Hne Hno].
  destruct (change_lines_step ev s Hs Hw He (not_eq_sym Hne)) as (Hw' & He' & _).
  cbn [Server.run foldl]. change (foldl _ ?s0 evs) with (run evs s0).
  apply IH; [done| |by apply (consistent_step dirname)|done|done|].
  - intros res Hin. apply (Hwrites res). by right.
  - apply writes_work_step; [done| |done].
    intros res ->. apply (Hwrites res). by left.
Qed.

(** C8: the watcher is started with [ignoreInitial], so the file it finds
    at startup is not announced and the process is as it was.  Afterwards,
    in a run that is not interrupted and in which no write to a client
    fails, the 'change' listener has run once for each modification
    observed and for nothing else (counted by its "File changed" line on
    the console); and one more modification logs the change, calls
    [notifyClients], and appends one "update" frame to the stream of every
    registered client. *)
Theorem watcher_notifications (evs : list event)
    (Hrun : Interrupt ∉ evs) (Hwrites : ∀ res, ChannelBreaks res ∉ evs) :
  ignoreInitial watcher_options = true ∧
  (∀ s, step (Observed Present) s = s) ∧
  change_lines RESUME_PATH (console (run (Observed Present :: evs) boot))
  = length (filter (λ ev, ev = Observed Modified) evs) ∧
  let s := run (Observed Present :: evs) boot in
  console (step (Observed Modified) s)
  = console s ++ [(Client.Log, "File changed: " +:+ RESUME_PATH);
                  (Client.Log, "Notifying " +:+ pretty (length (clients s))
                               +:+ " client(s) of update")] ∧
  ∀ h, h ∈ clients s →
       ∃ c c', connections s !! h = Some c ∧
               connections (step (Observed Modified) s) !! h = Some c' ∧
               written c' = written c ++ [frame Update].
Proof.
  split; [done|]. split; [|split].
  - intros s. unfold Server.step. destruct (exited s); [done|]. by destruct (watching s).
  - cbn [Server.run foldl]. change (foldl _ ?s0 evs) with (run evs s0).
    change (step (Observed Present) boot) with boot.
    rewrite change_lines_run; [done|apply consistent_boot|done|done|done].
  - intros s.
    assert (Hs : consistent s) by apply (consistent_run dirname), consistent_boot.
    assert (watching s = true ∧ exited s = None ∧
            ∀ h c, connections s !! h = Some c → throws c = false) as (Hw & He & Hok).
    { subst s. cbn [Server.run foldl].
      change (step (Observed Present) boot) with boot.
      change (foldl _ ?s0 evs) with (run evs s0).
      apply steady_run; [done|done|apply consistent_boot|done|done|].
      intros h c Hc. cbn in Hc. by rewrite lookup_empty in Hc. }
    assert (Hall : ∀ h, h ∈ clients s → ∃ c, connections s !! h = Some c ∧ throws c = false).
    { intros h Hh. destruct Hs as (_ & Hopen & _). destruct (Hopen h Hh) as (c & Hc & _).
      exists c. split; [done|]. by apply (Hok h). }
    unfold Server.step. rewrite He, Hw, observed_modified.
    set (s1 := with_console _ s).
    destruct (notifyClients_spec s1) as (r & s' & Hn & _ & _ & Hcon & _ & _ & _ & Hin & _);
      [by apply consistent_console|].
    rewrite Hn. cbn [snd].
    pose proof (served_all s1 (clients s1) Hall) as Hserved.
    split.
    + rewrite Hcon. subst s1. cbn [console with_console clients]. by rewrite <- app_assoc.
    + intros h Hh. destruct (Hall h Hh) as (c & Hc & _).
      exists c, (add_chunk (frame Update) c). split; [done|]. split; [|done].
      apply Hin; [by rewrite Hserved|done].
Qed.
End WatcherFacts.

(** ** The content endpoint *)

Section RenderingFacts.
Import Server.
Variable marked : string → settled string.
Variable dirname : string.

Abbreviation get_markdown := (get_markdown marked dirname).
Abbreviation serve := (serve marked dirname).

(** The handler of /api/markdown in closed form. *)
Lemma get_markdown_spec (disk : gmap string string) (s : server) :
  get_markdown disk s =
    match disk !! Server.RESUME_PATH dirname with
    | None =>
        (Fulfilled (json_error "Failed to read markdown file"),
         with_console (λ c, c ++ [(Client.Error, "Error reading markdown file: ENOENT")]) s)
    | Some markdown =>
        match marked markdown with
        | Fulfilled html => (Fulfilled (json_ok html), s)
        | Rejected e =>
            (Fulfilled (json_error "Failed to read markdown file"),
             with_console (λ c, c ++ [(Client.Error, "Error reading markdown file: " +:+ e)]) s)
        end
    end.
Proof.
  unfold Server.get_markdown, try_catch, bind, await, readFileSync, ret, console_error, modify.
  destruct (disk !! _) as [markdown|]; [|done].
  by destruct (marked markdown).
Qed.

Lemma get_markdown_returns (disk : gmap string string) (s : server) :
  ∃ r, get_markdown disk s = (Fulfilled r, snd (get_markdown disk s)) ∧
       connections (snd (get_markdown disk s)) = connections s ∧
       clients (snd (get_markdown disk s)) = clients s ∧
       watching (snd (get_markdown disk s)) = watching s ∧
       exited (snd (get_markdown disk s)) = exited s.
Proof.
  rewrite get_markdown_spec.
  destruct (disk !! _) as [markdown|]; [|by eexists].
  destruct (marked markdown); by eexists.
Qed.

(** Whatever the requests find on the disk, each of them is answered. *)
Lemma serve_running (disks : list (gmap string string)) :
  ∀ s, ∃ rs s', serve disks s = (Fulfilled rs, s') ∧ length rs = length disks ∧
                connections s' = connections s ∧ clients s' = clients s ∧
                watching s' = watching s ∧ exited s' = exited s.
Proof.
  induction disks as [|disk disks IH]; intros s.
  - by exists [], s.
  - cbn [Server.serve]. unfold bind at 1.
    destruct (get_markdown_returns disk s) as (r & Hr & Hc & Hl & Hw & He).
    destruct (IH (snd (get_markdown disk s))) as (rs & s' & Hrun & Hlen & Hc' & Hl' & Hw' & He').
    rewrite Hr. unfold bind at 1. rewrite Hrun. cbn.
    exists (r :: rs), s'. split; [done|]. cbn. split; [by rewrite Hlen|].
    repeat split; congruence.
Qed.

(** C3: the handler of /api/markdown never throws.  When the document
    cannot be read (or [marked] throws) it answers status 500 with the
    envelope [{ error }], on success status 200 with [{ html }] holding what
    [marked] made of the document; it does not end the process, close the
    watcher or touch the event stream, and any number of requests, failing
    or not, are all answered. *)
Theorem get_markdown_envelope (disk : gmap string string) (s : server) :
  ∃ r s', get_markdown disk s = (Fulfilled r, s') ∧
          match disk !! Server.RESUME_PATH dirname with
          | None =>
              r = HttpResponse 500 "application/json" None
                    (ErrorEnvelope "Failed to read markdown file")
          | Some markdown =>
              match marked markdown with
              | Fulfilled html =>
                  r = HttpResponse 200 "application/json" None (HtmlEnvelope html) ∧ s' = s
              | Rejected _ =>
                  r = HttpResponse 500 "application/json" None
                        (ErrorEnvelope "Failed to read markdown file")
              end
          end ∧
          exited s' = exited s ∧ watching s' = watching s ∧
          connections s' = connections s ∧ clients s' = clients s ∧
          ∀ later : list (gmap string string),
            ∃ rs s'', serve (disk :: later) s = (Fulfilled (r :: rs), s'') ∧
                      length rs = length later ∧ exited s'' = exited s.
Proof.
  destruct (get_markdown_returns disk s) as (r & Hrun & Hc & Hl & Hw & He).
  exists r, (snd (get_markdown disk s)). split; [exact Hrun|]. split.
  - rewrite get_markdown_spec in Hrun |- *.
    destruct (disk !! _) as [markdown|]; [|by simplify_eq].
    destruct (marked markdown); by simplify_eq.
  - do 4 (split; [done|]). intros later.
    cbn [Server.serve]. unfold bind at 1. rewrite Hrun.
    destruct (serve_running later (snd (get_markdown disk s)))
      as (rs & s'' & Hserve & Hlen & _ & _ & _ & He'').
    unfold bind at 1. rewrite Hserve. cbn.
    exists rs, s''. split; [done|]. split; [done|]. congruence.
Qed.
End RenderingFacts.

(** ** The PDF endpoint *)

Section ExportFacts.
Import Server.
Variable marked : string → settled string.
Variable print_to_pdf : string → pdf_options → settled string.
Variable dirname : string.

Abbreviation assemble := (assemble marked dirname).
Abbreviation resume := (resume marked print_to_pdf dirname).
Abbreviation advance := (advance marked print_to_pdf dirname).
Abbreviation generate_pdf := (generate_pdf marked print_to_pdf dirname).
Abbreviation issued := (issued marked print_to_pdf dirname).
Abbreviation interleave := (interleave marked print_to_pdf dirname).
Abbreviation outcome := (outcome marked print_to_pdf dirname).
Abbreviation answer := (answer marked print_to_pdf dirname).
Abbreviation succeeds := (succeeds marked print_to_pdf dirname).
Abbreviation reach := (reach print_to_pdf).
Abbreviation task_ok := (task_ok marked print_to_pdf dirname).

Lemma calls_of_snoc (pid q : nat) (c : call) (w w' : chromium) :
  calls w' = calls w ++ [(q, c)] →
  calls_of pid w' = calls_of pid w ++ (if decide (q = pid) then [c] else []).
Proof.
  intros H. unfold calls_of. rewrite H, filter_app, fmap_app. f_equal.
  rewrite filter_cons, filter_nil. cbn. by case_decide.
Qed.

Lemma tidy_fresh (w : chromium) (p : nat) :
  tidy w → spawned w ≤ p → calls_of p w = [].
Proof.
  unfold tidy, calls_of. generalize (spawned w) as n. intros n H Hle.
  induction H as [|[q c] l Hq Hl IH]; [done|].
  rewrite filter_cons. cbn in *. case_decide; [lia|done].
Qed.

Lemma tidy_snoc (w w' : chromium) (q : nat) (c : call) :
  tidy w → spawned w ≤ spawned w' → q < spawned w' →
  calls w' = calls w ++ [(q, c)] → tidy w'.
Proof.
  unfold tidy. intros H Hle Hq ->. apply Forall_app. split.
  - eapply Forall_impl; [exact H|]. cbn. intros ? ?. lia.
  - by apply Forall_singleton.
Qed.

(** A launch, whether it goes through or not, uses up a fresh process
    number. *)
Lemma launch_step (w w' : chromium) :
  tidy w → spawned w' = S (spawned w) →
  calls w' = calls w ++ [(spawned w, Launch)] →
  (∀ p, p ≠ spawned w → processes w' !! p = processes w !! p) →
  calls_of (spawned w) w' = [Launch] ∧ tidy w' ∧ untouched_but (Some (spawned w)) w w'.
Proof.
  intros Htidy Hsp Hcs Hothers. split; [|split].
  - rewrite (calls_of_snoc _ _ _ w w' Hcs), decide_True, tidy_fresh by done. done.
  - apply (tidy_snoc w w' (spawned w) Launch); [done|lia|lia|done].
  - split; [lia|]. intros p Hne. assert (p ≠ spawned w) by congruence.
    split; [by apply Hothers|].
    rewrite (calls_of_snoc p _ _ w w' Hcs), decide_False by done. apply app_nil_r.
Qed.

(** One more call to an export's own browser. *)
Lemma own_call (base pid n : nat) (html : string) (c : call) (w w' : chromium) :
  tidy w → owns base pid n html w →
  spawned w' = spawned w →
  calls w' = calls w ++ [(pid, c)] →
  (∀ p, p ≠ pid → processes w' !! p = processes w !! p) →
  take (S n) (export_calls html) = take n (export_calls html) ++ [c] →
  base ≤ pid ∧ pid < spawned w' ∧ calls_of pid w' = take (S n) (export_calls html) ∧
  tidy w' ∧ untouched_but (Some pid) w w'.
Proof.
  intros Htidy (Hbase & Hlt & Hproc & Hcalls) Hsp Hcs Hothers Htake.
  split; [done|]. split; [lia|]. split; [|split].
  - rewrite (calls_of_snoc pid pid c w w' Hcs), decide_True, Hcalls by done. done.
  - apply (tidy_snoc w w' pid c); [done|lia|lia|done].
  - split; [lia|]. intros p Hne. assert (p ≠ pid) by congruence.
    split; [by apply Hothers|].
    rewrite (calls_of_snoc p pid c w w' Hcs), decide_False by done. apply app_nil_r.
Qed.

Lemma own_step (base pid n : nat) (html : string) (c : call) (w w' : chromium) :
  tidy w → owns base pid n html w →
  spawned w' = spawned w →
  calls w' = calls w ++ [(pid, c)] →
  processes w' !! pid = browser_at (S n) html →
  (∀ p, p ≠ pid → processes w' !! p = processes w !! p) →
  take (S n) (export_calls html) = take n (export_calls html) ++ [c] →
  owns base pid (S n) html w' ∧ tidy w' ∧ untouched_but (Some pid) w w'.
Proof.
  intros Htidy Hown Hsp Hcs Hp Hothers Htake.
  destruct (own_call base pid n html c w w') as (? & ? & ? & ? & ?); try done.
Qed.

Lemma untouched_refl (own : option nat) (w : chromium) : untouched_but own w w.
Proof. split; [done|]. by intros. Qed.

Lemma owns_frame (base pid n : nat) (html : string) (o : option nat) (w w' : chromium) :
  owns base pid n html w → untouched_but o w w' → o ≠ Some pid →
  owns base pid n html w'.
Proof.
  intros (Hbase & Hlt & Hproc & Hcalls) (Hsp & Hsame) Hne.
  destruct (Hsame pid Hne) as [Hp Hc].
  split; [done|]. split; [lia|]. split; congruence.
Qed.

Lemma task_ok_frame (base : nat) (req : request) (st : stage)
    (own o : option nat) (w w' : chromium) :
  task_ok base req st own w → untouched_but o w w' →
  (∀ p, own = Some p → o ≠ Some p) →
  task_ok base req st own w'.
Proof.
  intros Hok Hun Hdisj. destruct st as [|html pid|html pid|html pid|pid|pid bytes|r]; cbn in *.
  - done.
  - destruct Hok as (-> & ? & ? & ?). eauto 10 using owns_frame.
  - destruct Hok as (-> & ? & ? & ?). eauto 10 using owns_frame.
  - destruct Hok as (-> & ? & ? & ?). eauto 10 using owns_frame.
  - destruct Hok as (-> & html & ? & ? & ?). eauto 10 using owns_frame.
  - destruct Hok as (-> & html & ? & ? & ? & ?). eauto 10 using owns_frame.
  - destruct Hok as (-> & Hown). split; [done|].
    destruct own as [pid|]; [|done].
    destruct Hown as (html & k & ? & ? & ? & Hcalls & Hdone).
    destruct Hun as (Hsp & Hsame). destruct (Hsame pid) as [Hp Hc]; [by apply Hdisj|].
    exists html, k. split; [done|]. split; [done|]. split; [lia|].
    split; [congruence|]. intros bytes Hs. rewrite Hp. exact (Hdone bytes Hs).
Qed.

Lemma task_ok_bound (base : nat) (req : request) (st : stage)
    (p : nat) (w : chromium) :
  task_ok base req st (Some p) w → base ≤ p < spawned w.
Proof.
  destruct st as [|html pid|html pid|html pid|pid|pid bytes|r]; cbn.
  - done.
  - intros ([= ->] & _ & _ & ? & ? & _). done.
  - intros ([= ->] & _ & _ & ? & ? & _). done.
  - intros ([= ->] & _ & _ & ? & ? & _). done.
  - intros ([= ->] & html & _ & _ & ? & ? & _). done.
  - intros ([= ->] & html & _ & _ & _ & ? & ? & _). done.
  - intros (_ & html & k & _ & ? & ? & _). done.
Qed.

Ltac run_step :=
  unfold Server.resume, Server.advance;
  repeat progress
    (unfold bind, ret, await, throw, on_chrome, log, attempt, failed_launch,
       newPage, setViewport, setContent, pdf, close, issue, modify, launch, on_browser;
     cbn [fst snd spawned processes calls has_page viewport document chrome output]).

Ltac solve_cleared :=
  match goal with
  | H : Server.cleared _ _ |- _ => destruct H as (? & ? & ? & ?)
  end;
  repeat split; intros; first [done | lia | auto with lia].

Ltac solve_answer Has :=
  unfold Server.answer, Server.outcome; rewrite Has;
  repeat match goal with
         | H : Server.cleared _ _ |- _ => destruct H as (? & ? & ? & ?)
         end;
  repeat match goal with
         | H : _ → fault _ _ = None |- _ => rewrite H by lia
         | H : fault _ _ = _ |- _ => rewrite H
         | H : print_to_pdf _ _ = _ |- _ => rewrite H
         end;
  done.

(** A request that did not get through does not count as succeeding. *)
Ltac not_succeeds :=
  let bytes := fresh "bytes" in
  let Has := fresh in let Hf := fresh in let Hp := fresh in
  intros bytes (Has & Hf & Hp);
  first [ congruence
        | match goal with
          | H : fault ?r ?a = Some _ |- _ => rewrite Hf in H; discriminate H
          end ].

(** One resumption keeps what holds of the request, touches no browser but
    the request's own, and launches at most one, under a fresh number. *)
Lemma resume_ok (base : nat) (req : request) (st : stage)
    (own : option nat) (n : node) :
  base ≤ spawned (chrome n) → tidy (chrome n) → task_ok base req st own (chrome n) →
  ∃ own', task_ok base req (resume req st n).1 own' (chrome (resume req st n).2) ∧
          tidy (chrome (resume req st n).2) ∧
          untouched_but own' (chrome n) (chrome (resume req st n).2) ∧
          (own' = own ∨ (own = None ∧ own' = Some (spawned (chrome n)))).
Proof.
  intros Hbase Htidy Hok. destruct n as [w out]. cbn [chrome] in *.
  destruct st as [|html pid|html pid|html pid|pid|pid bytes|r]; cbn in Hok.
  - subst own. run_step. destruct (assemble (disk req)) as [html|e] eqn:Has; cbn.
    + destruct (fault req ALaunch) as [e|] eqn:Hf; cbn.
      * exists (Some (spawned w)).
        edestruct (launch_step w) as (H1 & H2 & H3);
          [exact Htidy| | | |split; [|split; [exact H2|split; [exact H3|by right]]]];
          cbn; try done.
        split; [solve_answer Has|]. exists html, 1. split; [done|].
        split; [done|]. split; [cbn; lia|]. split; [exact H1|]. not_succeeds.
      * exists (Some (spawned w)).
        edestruct (launch_step w) as (H1 & H2 & H3);
          [exact Htidy| | | |split; [|split; [exact H2|split; [exact H3|by right]]]];
          cbn; try done.
        { intros p Hp. by rewrite lookup_insert_ne. }
        split; [done|]. split; [done|]. split; [repeat split; intros; first [done|lia]|].
        split; [done|]. split; [cbn; lia|]. split; [cbn; by rewrite lookup_insert_eq|done].
    + exists None. split; [|split; [done|split; [apply untouched_refl|by left]]].
      split; [|by eexists]. unfold Server.answer, Server.outcome. by rewrite Has.
  - destruct Hok as (-> & Has & Hcl & Hown). pose proof Hown as (_ & _ & Hproc & _).
    exists (Some pid). run_step.
    destruct (fault req ANewPage) as [e|] eqn:Hf; run_step.
    + edestruct (own_call base pid 1 html NewPage w) as (H1 & H2 & H3 & H4 & H5);
        [exact Htidy|exact Hown|..|split; [|split; [exact H4|split; [exact H5|by left]]]];
        cbn; try done.
      split; [solve_answer Has|]. exists html, 2. do 3 (split; [done|]).
      split; [exact H3|]. not_succeeds.
    + rewrite Hproc. cbn.
      edestruct (own_step base pid 1 html NewPage w) as (H1 & H2 & H3);
        [exact Htidy|exact Hown|..|split; [|split; [exact H2|split; [exact H3|by left]]]];
        cbn; try done.
      * by rewrite lookup_insert_eq.
      * intros p Hp. by rewrite lookup_insert_ne.
      * split; [done|]. split; [done|]. split; [solve_cleared|done].
  - destruct Hok as (-> & Has & Hcl & Hown). pose proof Hown as (_ & _ & Hproc & _).
    exists (Some pid). run_step.
    destruct (fault req ASetViewport) as [e|] eqn:Hf; run_step.
    + edestruct (own_call base pid 2 html (SetViewport 720 960 1) w) as (H1 & H2 & H3 & H4 & H5);
        [exact Htidy|exact Hown|..|split; [|split; [exact H4|split; [exact H5|by left]]]];
        cbn; try done.
      split; [solve_answer Has|]. exists html, 3. do 3 (split; [done|]).
      split; [exact H3|]. not_succeeds.
    + rewrite Hproc. cbn.
      edestruct (own_step base pid 2 html (SetViewport 720 960 1) w) as (H1 & H2 & H3);
        [exact Htidy|exact Hown|..|split; [|split; [exact H2|split; [exact H3|by left]]]];
        cbn; try done.
      * by rewrite lookup_insert_eq.
      * intros p Hp. by rewrite lookup_insert_ne.
      * split; [done|]. split; [done|]. split; [solve_cleared|done].
  - destruct Hok as (-> & Has & Hcl & Hown). pose proof Hown as (_ & _ & Hproc & _).
    exists (Some pid). run_step.
    destruct (fault req ASetContent) as [e|] eqn:Hf; run_step.
    + edestruct (own_call base pid 3 html (SetContent html) w) as (H1 & H2 & H3 & H4 & H5);
        [exact Htidy|exact Hown|..|split; [|split; [exact H4|split; [exact H5|by left]]]];
        cbn; try done.
      split; [solve_answer Has|]. exists html, 4. do 3 (split; [done|]).
      split; [exact H3|]. not_succeeds.
    + rewrite Hproc. cbn.
      edestruct (own_step base pid 3 html (SetContent html) w) as (H1 & H2 & H3);
        [exact Htidy|exact Hown|..|split; [|split; [exact H2|split; [exact H3|by left]]]];
        cbn; try done.
      * by rewrite lookup_insert_eq.
      * intros p Hp. by rewrite lookup_insert_ne.
      * split; [done|]. exists html. split; [done|]. split; [solve_cleared|done].
  - destruct Hok as (-> & html & Has & Hcl & Hown). pose proof Hown as (_ & _ & Hproc & _).
    exists (Some pid). run_step. rewrite Hproc. cbn.
    destruct (print_to_pdf html print_options) as [bytes|e] eqn:Hprint; cbn.
    + edestruct (own_step base pid 4 html (PrintPdf print_options) w) as (H1 & H2 & H3);
        [exact Htidy|exact Hown|..|split; [|split; [exact H2|split; [exact H3|by left]]]];
        cbn; try done.
      * by rewrite lookup_insert_eq.
      * intros p Hp. by rewrite lookup_insert_ne.
      * split; [done|]. exists html. done.
    + edestruct (own_call base pid 4 html (PrintPdf print_options) w) as (H1 & H2 & H3 & H4 & H5);
        [exact Htidy|exact Hown|..|split; [|split; [exact H4|split; [exact H5|by left]]]];
        cbn; try done.
      split; [solve_answer Has|]. exists html, 5. do 3 (split; [done|]).
      split; [exact H3|]. not_succeeds.
  - destruct Hok as (-> & html & Has & Hcl & Hprint & Hown).
    exists (Some pid). run_step.
    destruct (fault req AClose) as [e|] eqn:Hf; run_step.
    + edestruct (own_call base pid 5 html CloseBrowser w) as (H1 & H2 & H3 & H4 & H5);
        [exact Htidy|exact Hown|..|split; [|split; [exact H4|split; [exact H5|by left]]]];
        cbn; try done.
      split; [solve_answer Has|]. exists html, 6. do 3 (split; [done|]).
      split; [exact H3|]. not_succeeds.
    + edestruct (own_call base pid 5 html CloseBrowser w) as (H1 & H2 & H3 & H4 & H5);
        [exact Htidy|exact Hown|..|split; [|split; [exact H4|split; [exact H5|by left]]]];
        cbn; try done.
      * intros p Hp. by rewrite lookup_delete_ne.
      * split; [solve_answer Has|]. exists html, 6. do 3 (split; [done|]).
        split; [exact H3|]. intros _ _. split; [apply lookup_delete_eq|done].
  - exists own. run_step. split; [done|]. split; [done|]. split; [apply untouched_refl|by left].
Qed.

(** One resumption moves a request on by one stage, or to its answer. *)
Lemma resume_rank (req : request) (st : stage) (n : node) :
  Nat.min 6 (S (rank st)) ≤ rank (resume req st n).1.
Proof.
  destruct st; run_step; repeat case_match; simplify_eq; cbn; lia.
Qed.

Lemma rank_responded (st : stage) : 6 ≤ rank st → ∃ r, st = Responded r.
Proof. destruct st; cbn; try lia. by eexists. Qed.

(** A request run on its own: its answer and the calls it has issued. *)
Lemma generate_pdf_spec (req : request) (n : node) :
  fst (generate_pdf req n) = Responded (answer req) ∧
  calls (chrome (snd (generate_pdf req n)))
  = calls (chrome n) ++
    match assemble (disk req) with
    | Rejected _ => []
    | Fulfilled html => pair (spawned (chrome n)) <$> take (reach req html) (export_calls html)
    end.
Proof.
  destruct n as [w out].
  unfold Server.generate_pdf, drive, Server.answer, Server.outcome, Server.reach.
  run_step. destruct (assemble (disk req)) as [html|e]; cbn; [|by rewrite app_nil_r].
  destruct (fault req ALaunch); run_step; [done|].
  destruct (fault req ANewPage); run_step; [by rewrite <- !app_assoc|].
  rewrite !lookup_insert_eq. run_step.
  destruct (fault req ASetViewport); run_step; [by rewrite <- !app_assoc|].
  rewrite !lookup_insert_eq. run_step.
  destruct (fault req ASetContent); run_step; [by rewrite <- !app_assoc|].
  rewrite !lookup_insert_eq. run_step.
  rewrite !lookup_insert_eq. run_step. cbn [default from_option id].
  destruct (print_to_pdf html print_options); run_step; [|by rewrite <- !app_assoc].
  destruct (fault req AClose); run_step; by rewrite <- !app_assoc.
Qed.

Lemma issued_spec (req : request) (n : node) :
  issued req n =
    match assemble (disk req) with
    | Rejected _ => []
    | Fulfilled html => pair (spawned (chrome n)) <$> take (reach req html) (export_calls html)
    end.
Proof.
  unfold Server.issued. destruct (generate_pdf_spec req n) as [_ ->].
  by rewrite drop_app_length.
Qed.

Lemma issued_export_call (req : request) (n : node) (pid : nat) (c : call) :
  (pid, c) ∈ issued req n →
  ∃ html, assemble (disk req) = Fulfilled html ∧ pid = spawned (chrome n) ∧ c ∈ export_calls html.
Proof.
  rewrite issued_spec. destruct (assemble (disk req)) as [html|e]; [|by intros ?%elem_of_nil].
  intros (c' & [= -> ->] & Hin%subseteq_take)%list_elem_of_fmap. by exists html.
Qed.

Lemma answer_pdf (req : request) (bytes : string) :
  answer req = send_pdf bytes →
  ∃ html, assemble (disk req) = Fulfilled html ∧ reach req html = 6 ∧
          print_to_pdf html print_options = Fulfilled bytes ∧
          outcome req = Fulfilled bytes.
Proof.
  unfold Server.answer, Server.outcome, Server.reach, json_error, send_pdf.
  destruct (assemble (disk req)) as [html|e]; [|done].
  destruct (fault req ALaunch); [done|].
  destruct (fault req ANewPage); [done|].
  destruct (fault req ASetViewport); [done|].
  destruct (fault req ASetContent); [done|].
  destruct (print_to_pdf html print_options) as [b|] eqn:Hprint; [|done].
  destruct (fault req AClose); [done|].
  intros [= ->]. exists html. by rewrite Hprint.
Qed.

Lemma assemble_parts (disk : gmap string string) (html : string) :
  assemble disk = Fulfilled html →
  ∃ markdown contentHtml githubCss customCss,
    disk !! RESUME_PATH dirname = Some markdown ∧
    marked markdown = Fulfilled contentHtml ∧
    disk !! github_css_path dirname = Some githubCss ∧
    disk !! custom_css_path dirname = Some customCss ∧
    html = fullHtml githubCss customCss contentHtml.
Proof.
  unfold Server.assemble, readFileSync.
  destruct (disk !! RESUME_PATH dirname) as [markdown|] eqn:H1; [|done].
  destruct (marked markdown) as [contentHtml|] eqn:H2; [|done].
  destruct (disk !! github_css_path dirname) as [githubCss|] eqn:H3; [|done].
  destruct (disk !! custom_css_path dirname) as [customCss|] eqn:H4; [|done].
  intros [= <-]. by exists markdown, contentHtml, githubCss, customCss.
Qed.

Lemma answer_cases (req : request) :
  answer req = json_error "Failed to generate PDF" ∨
  ∃ html bytes, succeeds req html bytes ∧ answer req = send_pdf bytes.
Proof.
  unfold Server.answer, Server.outcome, Server.succeeds.
  destruct (assemble (disk req)) as [html|e]; [|by left].
  destruct (fault req ALaunch) eqn:H1; [by left|].
  destruct (fault req ANewPage) eqn:H2; [by left|].
  destruct (fault req ASetViewport) eqn:H3; [by left|].
  destruct (fault req ASetContent) eqn:H4; [by left|].
  destruct (print_to_pdf html print_options) as [bytes|] eqn:Hprint; [|by left].
  destruct (fault req AClose) eqn:H5; [by left|].
  right. exists html, bytes. split; [|done]. split; [done|]. split; [|done].
  by intros [].
Qed.

(** Two requests resumed in any order: what holds of each keeps holding,
    their browsers stay apart, each has moved on once per turn, and no
    other browser has been touched. *)
Lemma interleave_ok (base : nat) (a b : request) (schedule : list bool) :
  ∀ (sa sb : stage) (own_a own_b : option nat) (n : node),
    base ≤ spawned (chrome n) → tidy (chrome n) →
    task_ok base a sa own_a (chrome n) → task_ok base b sb own_b (chrome n) →
    (∀ p, own_a = Some p → own_b ≠ Some p) →
    ∃ sa' sb' n' own_a' own_b',
      interleave a b schedule sa sb n = (sa', sb', n') ∧
      task_ok base a sa' own_a' (chrome n') ∧ task_ok base b sb' own_b' (chrome n') ∧
      (∀ p, own_a' = Some p → own_b' ≠ Some p) ∧
      Nat.min 6 (rank sa + turns true schedule) ≤ rank sa' ∧
      Nat.min 6 (rank sb + turns false schedule) ≤ rank sb' ∧
      (∀ p, own_a = Some p → own_a' = Some p) ∧
      (∀ p, own_b = Some p → own_b' = Some p) ∧
      spawned (chrome n) ≤ spawned (chrome n') ∧
      (∀ p, own_a' ≠ Some p → own_b' ≠ Some p →
            processes (chrome n') !! p = processes (chrome n) !! p ∧
            calls_of p (chrome n') = calls_of p (chrome n)).
Proof.
  induction schedule as [|who schedule IH]; intros sa sb own_a own_b n Hbase Htidy Ha Hb Hapart.
  - exists sa, sb, n, own_a, own_b. split; [done|]. do 3 (split; [done|]).
    unfold turns. rewrite !filter_nil. cbn [length]. repeat split; try done; lia.
  - destruct who; cbn [Server.interleave].
    + destruct (resume_ok base a sa own_a n Hbase Htidy Ha)
        as (own_a1 & Ha' & Htidy' & Hun & Hown).
      pose proof (resume_rank a sa n) as Hrank.
      destruct (resume a sa n) as [sa1 n1]. cbn [fst snd] in *.
      assert (Hapart' : ∀ p, own_a1 = Some p → own_b ≠ Some p).
      { intros p -> Hp. destruct Hown as [<-|[-> [= ->]]]; [by eapply Hapart|].
        subst own_b. apply task_ok_bound in Hb. lia. }
      assert (Hb' : task_ok base b sb own_b (chrome n1)).
      { eapply task_ok_frame; [exact Hb|exact Hun|]. intros p -> Hp.
        by eapply Hapart'. }
      destruct (IH sa1 sb own_a1 own_b n1)
        as (sa' & sb' & n' & oa & ob & Hrun & ? & ? & ? & ? & ? & Hka & Hkb & Hsp & Hrest);
        try done.
      { destruct Hun as [? _]. lia. }
      exists sa', sb', n', oa, ob. rewrite Hrun. do 4 (split; [done|]).
      split; [|split; [|split; [|split; [done|split]]]].
      * unfold turns in *. rewrite filter_cons_True by done. cbn [length]. lia.
      * unfold turns in *. rewrite filter_cons_False by done. lia.
      * intros p ->. apply Hka. by destruct Hown as [->|[? _]].
      * destruct Hun as [? _]. lia.
      * intros p Hpa Hpb. destruct (Hrest p Hpa Hpb) as [-> ->].
        destruct Hun as [_ Hsame]. apply Hsame. intros Heq. by apply Hpa, Hka.
    + destruct (resume_ok base b sb own_b n Hbase Htidy Hb)
        as (own_b1 & Hb' & Htidy' & Hun & Hown).
      pose proof (resume_rank b sb n) as Hrank.
      destruct (resume b sb n) as [sb1 n1]. cbn [fst snd] in *.
      assert (Hapart' : ∀ p, own_a = Some p → own_b1 ≠ Some p).
      { intros p -> Hp. destruct Hown as [->|[-> ->]]; [by eapply Hapart|].
        simplify_eq. apply task_ok_bound in Ha. lia. }
      assert (Ha' : task_ok base a sa own_a (chrome n1)).
      { eapply task_ok_frame; [exact Ha|exact Hun|]. intros p -> Hp.
        by eapply Hapart'. }
      destruct (IH sa sb1 own_a own_b1 n1)
        as (sa' & sb' & n' & oa & ob & Hrun & ? & ? & ? & ? & ? & Hka & Hkb & Hsp & Hrest);
        try done.
      { destruct Hun as [? _]. lia. }
      exists sa', sb', n', oa, ob. rewrite Hrun. do 4 (split; [done|]).
      split; [|split; [|split; [done|split; [|split]]]].
      * unfold turns in *. rewrite filter_cons_False by done. lia.
      * unfold turns in *. rewrite filter_cons_True by done. cbn [length]. lia.
      * intros p ->. apply Hkb. by destruct Hown as [->|[? _]].
      * destruct Hun as [? _]. lia.
      * intros p Hpa Hpb. destruct (Hrest p Hpa Hpb) as [-> ->].
        destruct Hun as [_ Hsame]. apply Hsame. intros Heq. by apply Hpb, Hkb.
Qed.

(** C1: every [page.pdf] call a request to /api/generate-pdf issues asks
    for format Letter with a margin of 0.5in at the top, right, bottom and
    left; and a request that is answered with a PDF has issued such a call,
    on the browser it launched. *)
Theorem export_pdf_options (req : request) (n : node) :
  (∀ pid options, (pid, PrintPdf options) ∈ issued req n →
     format options = "Letter" ∧
     margin_top options = "0.5in" ∧ margin_right options = "0.5in" ∧
     margin_bottom options = "0.5in" ∧ margin_left options = "0.5in") ∧
  (∀ bytes, fst (generate_pdf req n) = Responded (send_pdf bytes) →
     ∃ options, (spawned (chrome n), PrintPdf options) ∈ issued req n ∧
                letter_half_inch options).
Proof.
  split.
  - intros pid options (html & _ & _ & Hin)%issued_export_call.
    unfold export_calls in Hin.
    repeat (apply elem_of_cons in Hin as [Hin|Hin]; [by simplify_eq|]).
    by apply elem_of_nil in Hin.
  - intros bytes Hr. destruct (generate_pdf_spec req n) as [Hans _].
    rewrite Hans in Hr. injection Hr as Hr.
    destruct (answer_pdf req bytes Hr) as (html & Has & Hreach & _).
    exists print_options. split; [|done].
    rewrite issued_spec, Has, Hreach. apply list_elem_of_fmap.
    exists (PrintPdf print_options). split; [done|]. cbn. do 4 right. left.
Qed.


End ExportFacts.
(** ** More of the client *)

Section MoreClientFacts.
Import Client Wiring.

Ltac run_js :=
  repeat (cbn [fst snd elements console alerts windows timers object_urls requests
               with_elements with_console with_alerts with_windows with_timers
               with_object_urls with_requests] in *
          || unfold bind, ret, throw, await, try_catch, modify, gets in *
          || unfold getElementById, assign, read, console_log, console_error, alert,
                    setTimeout, createObjectURL, window_open, fetch in * ).

(** X1: a load whose body parses to an object, on a page with the content
    element and no timer pending.  [loadMarkdown] returns with the content
    dimmed to 0.5, its markup untouched, and one timer of 100 ms set; when
    the timer fires the markup is the body's [html] property as a string
    and the opacity is 1. *)
Theorem loadMarkdown_phases (net : network) (p : page) (el : element)
    (r : response) (fields : gmap string js_value)
    (Hel : elements p !! "markdown-content" = Some el)
    (Htim : timers p = [])
    (Hnet : net "/api/markdown" = Fulfilled r)
    (Hjson : json_body r = Fulfilled (JObject fields)) :
  ∃ p1 p2,
    loadMarkdown net p = (Fulfilled tt, p1) ∧
    elements p1 !! "markdown-content" = Some (set_opacity "0.5" el) ∧
    timers p1 = [(100, ShowContent (Some "markdown-content") (JObject fields))] ∧
    fire_timer p1 = (Fulfilled tt, p2) ∧
    elements p2 !! "markdown-content"
      = Some (Element (to_markup (default VUndefined (fields !! "html")))
                      (textContent el) (disabled el) "1") ∧
    timers p2 = [].
Proof.
  unfold loadMarkdown. run_js. rewrite Hnet, Hjson. run_js. rewrite Hel. run_js.
  eexists _, _. split; [reflexivity|]. run_js. rewrite Htim.
  split; [by rewrite lookup_alter_eq, Hel|]. split; [done|].
  unfold fire_timer, run_callback. run_js. rewrite Htim. run_js.
  split; [reflexivity|]. run_js.
  split; [|done]. rewrite !lookup_alter_eq, Hel. done.
Qed.

(** X2: on a page without the content element [loadMarkdown] rejects with
    a [TypeError], whatever the network did: the [catch] block dereferences
    the missing element too.  No element, timer or alert changes. *)
Theorem loadMarkdown_without_content (net : network) (p : page)
    (Hel : elements p !! "markdown-content" = None) :
  ∃ p', loadMarkdown net p = (Rejected "TypeError", p') ∧
        elements p' = elements p ∧ timers p' = timers p ∧ alerts p' = alerts p.
Proof.
  unfold loadMarkdown. run_js.
  destruct (net "/api/markdown") as [r|e]; run_js;
    [destruct (json_body r) as [d|e]; run_js|];
    rewrite ?Hel; run_js; rewrite ?Hel; run_js;
    (eexists; split; [reflexivity|done]).
Qed.

(** X3: a body that is the JSON literal [null] passes the [try] block; the
    timer callback then throws on [data.html], outside any [try], and the
    content stays dimmed at 0.5 with its old markup. *)
Theorem loadMarkdown_null_body (net : network) (p : page) (el : element) (r : response)
    (Hel : elements p !! "markdown-content" = Some el)
    (Htim : timers p = [])
    (Hnet : net "/api/markdown" = Fulfilled r)
    (Hjson : json_body r = Fulfilled JNull) :
  ∃ p1 p2,
    loadMarkdown net p = (Fulfilled tt, p1) ∧
    fire_timer p1 = (Rejected "TypeError", p2) ∧
    elements p2 !! "markdown-content" = Some (set_opacity "0.5" el) ∧
    timers p2 = [].
Proof.
  unfold loadMarkdown. run_js. rewrite Hnet, Hjson. run_js. rewrite Hel. run_js.
  eexists _, _. split; [reflexivity|].
  unfold fire_timer, run_callback. run_js. rewrite Htim. run_js.
  split; [reflexivity|]. run_js.
  split; [|done]. by rewrite lookup_alter_eq, Hel.
Qed.

Lemma loadMarkdown_keeps_to_content (net : network) (p : page) :
  requests (snd (loadMarkdown net p)) = requests p ++ ["/api/markdown"] ∧
  alerts (snd (loadMarkdown net p)) = alerts p ∧
  windows (snd (loadMarkdown net p)) = windows p ∧
  object_urls (snd (loadMarkdown net p)) = object_urls p ∧
  ∀ id, id ≠ "markdown-content" →
        elements (snd (loadMarkdown net p)) !! id = elements p !! id.
Proof.
  unfold loadMarkdown. run_js.
  destruct (net "/api/markdown") as [r|e]; run_js;
    [destruct (json_body r) as [d|e]; run_js|];
    destruct (elements p !! "markdown-content") eqn:Hel; run_js;
    rewrite ?Hel; run_js;
    (do 4 (split; [done|])); intros id Hne; by rewrite ?lookup_alter_ne.
Qed.

(** X5: [loadMarkdown] issues exactly one request, to /api/markdown, and
    keeps to the content area: it never alerts, opens no window, registers
    no object URL and leaves every other element as it is. *)
Theorem loadMarkdown_frame (net : network) (p : page) :
  requests (snd (loadMarkdown net p)) = requests p ++ ["/api/markdown"] ∧
  alerts (snd (loadMarkdown net p)) = alerts p ∧
  windows (snd (loadMarkdown net p)) = windows p ∧
  object_urls (snd (loadMarkdown net p)) = object_urls p ∧
  ∀ id, id ≠ "markdown-content" →
        elements (snd (loadMarkdown net p)) !! id = elements p !! id.
Proof.
  unfold loadMarkdown. run_js.
  destruct (net "/api/markdown") as [r|e]; run_js;
    [destruct (json_body r) as [d|e]; run_js|];
    destruct (elements p !! "markdown-content") eqn:Hel; run_js;
    rewrite ?Hel; run_js;
    (do 4 (split; [done|])); intros id Hne; by rewrite ?lookup_alter_ne.
Qed.
Lemma loadMarkdown_schedules (net : network) (p : page) (el : element) :
  elements p !! "markdown-content" = Some el →
  ∃ el', elements (snd (loadMarkdown net p)) !! "markdown-content" = Some el' ∧
         timers (snd (loadMarkdown net p)) = timers p ++ (timer_of <$> parsed_body net).
Proof.
  intros Hel. unfold loadMarkdown, parsed_body. run_js.
  destruct (net "/api/markdown") as [r|e]; run_js;
    [destruct (json_body r) as [d|e]; run_js|];
    rewrite ?Hel; run_js; rewrite ?Hel; run_js;
    rewrite lookup_alter_eq, Hel; cbn; rewrite ?app_nil_r; by eexists.
Qed.

Lemma burst_schedules (nets : list network) (p : page) (el : element) :
  elements p !! "markdown-content" = Some el →
  ∃ p' el', burst nets p = (Fulfilled tt, p') ∧
            elements p' !! "markdown-content" = Some el' ∧
            timers p' = timers p ++ (timer_of <$> flat_map parsed_body nets).
Proof.
  unfold burst. revert p el. induction nets as [|net nets IH]; intros p el Hel.
  - exists p, el. cbn. by rewrite app_nil_r.
  - cbn [for_each flat_map]. unfold bind at 1, detached at 1.
    destruct (loadMarkdown_schedules net p el Hel) as (el1 & Hel1 & Htim1).
    destruct (IH _ el1 Hel1) as (p' & el' & Hrun & Hel' & Htim').
    exists p', el'. split; [exact Hrun|]. split; [done|].
    by rewrite Htim', Htim1, fmap_app, app_assoc.
Qed.

Lemma fire_timers_shows (bodies : list json) :
  ∀ (p : page) (el : element),
    elements p !! "markdown-content" = Some el →
    timers p = timer_of <$> bodies →
    ∃ p', fire_timers (length bodies) p = (Fulfilled tt, p') ∧
          elements p' !! "markdown-content" = Some (foldl (λ e d, show d e) el bodies) ∧
          timers p' = [].
Proof.
  induction bodies as [|d bodies IH]; intros p el Hel Htim.
  - exists p. by cbn.
  - cbn [length fire_timers]. unfold bind at 1, detached at 1.
    unfold fire_timer. rewrite Htim. cbn [fmap list_fmap timer_of].
    unfold run_callback. cbn [foldl]. unfold show at 2.
    destruct (get_field d "html") as [v|e]; run_js.
    + apply IH; cbn; [|done]. by rewrite !lookup_alter_eq, Hel.
    + apply IH; by cbn.
Qed.

(** X4: a burst of reloads, then all timers.  The content area ends up
    showing the [html] of the last body that was fetched and parsed, at
    opacity 1, with no timer left; a load that failed after it, and the
    error message it put up, make no difference. *)
Theorem burst_last_parsed_wins (nets : list network) (p : page) (el : element)
    (earlier : list json) (fields : gmap string js_value)
    (Hel : elements p !! "markdown-content" = Some el)
    (Htim : timers p = [])
    (Hlast : flat_map parsed_body nets = earlier ++ [JObject fields]) :
  ∃ p' el', (burst nets ;;; drain) p = (Fulfilled tt, p') ∧
            elements p' !! "markdown-content" = Some el' ∧
            innerHTML el' = to_markup (default VUndefined (fields !! "html")) ∧
            opacity el' = "1" ∧
            timers p' = [].
Proof.
  destruct (burst_schedules nets p el Hel) as (p1 & el1 & Hrun & Hel1 & Htim1).
  rewrite Htim in Htim1. cbn [List.app] in Htim1.
  destruct (fire_timers_shows (flat_map parsed_body nets) p1 el1 Hel1 Htim1)
    as (p' & Hfire & Hel' & Htim').
  exists p', (foldl (λ e d, show d e) el1 (flat_map parsed_body nets)).
  split.
  - unfold bind. rewrite Hrun. unfold drain. by rewrite Htim1, length_fmap.
  - split; [done|]. rewrite Hlast, foldl_app. cbn. done.
Qed.

Lemma exportToPDF_begin_spec (p : page) (btn : element) :
  elements p !! "export-pdf-btn" = Some btn →
  exportToPDF_begin p =
    (Fulfilled (Some "export-pdf-btn", textContent btn),
     with_requests (λ r, r ++ ["/api/generate-pdf"])
       (with_elements (alter (set_disabled true) "export-pdf-btn")
          (with_elements (alter (set_textContent loading_label) "export-pdf-btn") p))).
Proof. intros Hbtn. unfold exportToPDF_begin. run_js. repeat (rewrite Hbtn; run_js). done. Qed.

(** X6: on a page without the export button [exportToPDF] rejects with a
    [TypeError] before anything else happens: no request is sent and the
    page is exactly as it was. *)
Theorem exportToPDF_without_button (net : network) (p : page)
    (Hbtn : elements p !! "export-pdf-btn" = None) :
  exportToPDF net p = (Rejected "TypeError", p).
Proof. unfold exportToPDF, exportToPDF_begin. run_js. rewrite Hbtn. run_js. done. Qed.

(** X7: one invocation of [exportToPDF] sends exactly one request, to
    /api/generate-pdf, whatever comes back (nothing is retried), sets no
    timer and leaves every element but the button as it is. *)
Theorem exportToPDF_frame (net : network) (p : page) (btn : element)
    (Hbtn : elements p !! "export-pdf-btn" = Some btn) :
  requests (snd (exportToPDF net p)) = requests p ++ ["/api/generate-pdf"] ∧
  timers (snd (exportToPDF net p)) = timers p ∧
  ∀ id, id ≠ "export-pdf-btn" →
        elements (snd (exportToPDF net p)) !! id = elements p !! id.
Proof.
  unfold exportToPDF. unfold bind. rewrite !(exportToPDF_begin_spec p btn Hbtn).
  cbn [fst snd]. unfold exportToPDF_settle.
  destruct (net "/api/generate-pdf") as [[[] js [blob|e]]|e];
    run_js; cbn [ok blob_body negb]; run_js;
    (do 2 (split; [done|])); intros id Hne; by rewrite !lookup_alter_ne.
Qed.

(** X8: when the response is ok and its blob can be read, [exportToPDF]
    opens one new tab, on an object URL that stands for that very blob,
    logs the success and does not alert. *)
Theorem exportToPDF_success (net : network) (p : page) (btn : element)
    (js : settled json) (blob : string)
    (Hbtn : elements p !! "export-pdf-btn" = Some btn)
    (Hnet : net "/api/generate-pdf" = Fulfilled (Response true js (Fulfilled blob))) :
  ∃ p', exportToPDF net p = (Fulfilled tt, p') ∧
        windows p' = windows p ++ [(ObjectURL (length (object_urls p)), "_blank")] ∧
        object_urls p' !! length (object_urls p) = Some blob ∧
        alerts p' = alerts p ∧
        console p' = console p ++ [(Log, "✅ PDF generated successfully")].
Proof.
  unfold exportToPDF. unfold bind at 1. rewrite (exportToPDF_begin_spec p btn Hbtn).
  cbn [fst snd]. unfold exportToPDF_settle. rewrite Hnet.
  run_js. cbn [ok blob_body negb]. run_js.
  eexists. split; [reflexivity|]. run_js.
  split; [done|]. split; [|done]. by rewrite lookup_app_r, Nat.sub_diag.
Qed.
Lemma onmessage_message (net : network) (type : string) (p : page) :
  ∃ p', onmessage net (message type) p = (Fulfilled tt, p') ∧
        requests p' = requests p ++ (if decide (type = "update") then ["/api/markdown"] else []).
Proof.
  unfold onmessage, message, bind, await, get_field. rewrite lookup_singleton_eq.
  cbn [default from_option id strict_eq_string].
  destruct (decide (type = "connected")) as [->|Hc].
  - rewrite bool_decide_eq_true_2 by done. rewrite decide_False by done.
    eexists. split; [reflexivity|]. cbn. by rewrite app_nil_r.
  - rewrite (bool_decide_eq_false_2 (type = "connected")) by done.
    destruct (decide (type = "update")) as [->|Hu].
    + rewrite bool_decide_eq_true_2 by done.
      unfold console_log, modify, bind. eexists. split; [reflexivity|].
      cbn [snd]. destruct (loadMarkdown_keeps_to_content net
        (with_console (λ c, c ++ [(Log, "🔄 File changed, reloading content...")]) p)) as [-> _].
      done.
    + rewrite bool_decide_eq_false_2 by done. exists p. split; [done|]. by rewrite app_nil_r.
Qed.

(** X10: handling the messages of a stream in order, the client fetches
    /api/markdown once for each message of type "update" and for no other:
    "connected" is only logged, any other type is ignored. *)
Theorem receive_counts_updates (net : network) (types : list string) (p : page) :
  ∃ p', receive net (message <$> types) p = (Fulfilled tt, p') ∧
        requests p' = requests p ++ replicate (updates types) "/api/markdown".
Proof.
  unfold receive. revert p. induction types as [|t types IH]; intros p.
  - exists p. split; [done|]. cbn. by rewrite app_nil_r.
  - cbn [fmap list_fmap for_each]. unfold bind at 1.
    destruct (onmessage_message net t p) as (p1 & -> & Hreq).
    destruct (IH p1) as (p' & Hrun & Hreq'). exists p'. split; [exact Hrun|].
    rewrite Hreq', Hreq, <- app_assoc. f_equal. unfold updates. rewrite filter_cons.
    by destruct (decide (t = "update")).
Qed.

(** X9: a message whose [type] is absent, not a string, or a string other
    than "connected" and "update" changes nothing on the page; a message
    that parses to [null] makes the handler throw a [TypeError], the page
    unchanged as well. *)
Theorem onmessage_ignores (net : network) (fields : gmap string js_value) (p : page)
    (Hother : ∀ s, fields !! "type" = Some (VString s) → s ≠ "connected" ∧ s ≠ "update") :
  onmessage net (JObject fields) p = (Fulfilled tt, p) ∧
  onmessage net JNull p = (Rejected "TypeError", p).
Proof.
  split; [|done]. unfold onmessage, bind, await, get_field.
  destruct (fields !! "type") as [[| |s]|];
    cbn [default from_option id strict_eq_string]; try done.
  destruct (Hother s eq_refl) as [Hc Hu].
  by rewrite !bool_decide_eq_false_2.
Qed.

Ltac run_wiring :=
  repeat progress
    (unfold init, on_view, setupLiveReload, detached, run_listener, settle_export,
       bind, ret, modify, gets, getElementById;
     cbn [fst snd view event_sources click_listeners in_flight]).

(** X11: the page-load handler never throws, whatever the page holds and
    whatever the network does.  It sends one request to /api/markdown,
    opens one event source on /events, and registers [exportToPDF] as the
    click listener of the export button exactly when the page has that
    button. *)
Theorem init_wires (net : network) (a : runtime) :
  ∃ a', init net a = (Fulfilled tt, a') ∧
        requests (view a') = requests (view a) ++ ["/api/markdown"] ∧
        event_sources a' = event_sources a ++ ["/events"] ∧
        click_listeners a'
          = click_listeners a ++
            match elements (view a) !! "export-pdf-btn" with
            | Some _ => [("export-pdf-btn", ExportToPDF)]
            | None => []
            end ∧
        in_flight a' = in_flight a.
Proof.
  destruct (loadMarkdown_keeps_to_content net (view a)) as (Hreq & _ & _ & _ & Hframe).
  specialize (Hframe "export-pdf-btn" ltac:(done)).
  run_wiring. rewrite Hframe.
  destruct (elements (view a) !! "export-pdf-btn"); run_wiring;
    (eexists; split; [reflexivity|]); cbn [view event_sources click_listeners in_flight];
    rewrite ?app_nil_r; done.
Qed.

(** X12: with [exportToPDF] wired to an enabled export button and no export
    in flight, a click starts one export: one request to /api/generate-pdf.
    A further click while it is in flight does nothing at all, the button
    being disabled.  Once the request has settled, however it went, the
    next click starts an export again. *)
Theorem click_starts_one_export (a : runtime) (el : element)
    (Hbtn : elements (view a) !! "export-pdf-btn" = Some el)
    (Hen : disabled el = false)
    (Hls : click_listeners a = [("export-pdf-btn", ExportToPDF)])
    (Hidle : in_flight a = []) :
  ∃ a1, click "export-pdf-btn" a = (Fulfilled tt, a1) ∧
        requests (view a1) = requests (view a) ++ ["/api/generate-pdf"] ∧
        in_flight a1 = [(Some "export-pdf-btn", textContent el)] ∧
        click "export-pdf-btn" a1 = (Fulfilled tt, a1) ∧
        ∀ outcome, ∃ a2 a3,
          settle_export outcome a1 = (Fulfilled tt, a2) ∧ in_flight a2 = [] ∧
          click "export-pdf-btn" a2 = (Fulfilled tt, a3) ∧
          requests (view a3) = requests (view a2) ++ ["/api/generate-pdf"] ∧
          in_flight a3 = [(Some "export-pdf-btn", textContent el)].
Proof.
  assert (Hclick : ∀ (b : runtime) (e : element),
            elements (view b) !! "export-pdf-btn" = Some e → disabled e = false →
            click_listeners b = [("export-pdf-btn", ExportToPDF)] →
            click "export-pdf-btn" b =
              (Fulfilled tt,
               Runtime (snd (exportToPDF_begin (view b))) (event_sources b) (click_listeners b)
                       (in_flight b ++ [(Some "export-pdf-btn", textContent e)]))).
  { intros b e Hb He Hl. unfold click. rewrite Hb, He, Hl.
    rewrite filter_cons_True by done. rewrite filter_nil.
    cbn [fmap list_fmap snd for_each]. run_wiring.
    rewrite !(exportToPDF_begin_spec (view b) e Hb). cbn [fst snd]. by rewrite ?Hl. }
  eexists. split; [by apply Hclick|].
  rewrite (exportToPDF_begin_spec (view a) el Hbtn), Hidle. cbn [snd view in_flight List.app].
  split; [done|]. split; [done|]. split.
  - unfold click. cbn [view]. run_js. by rewrite !lookup_alter_eq, Hbtn.
  - intros outcome. run_wiring.
    match goal with |- context [exportToPDF_settle _ _ _ ?q] => set (p1 := q) end.
    assert (H1 : elements p1 !! "export-pdf-btn"
                 = Some (set_disabled true (set_textContent loading_label el))).
    { subst p1. cbn. by rewrite !lookup_alter_eq, Hbtn. }
    destruct (exportToPDF_settle_button (textContent el) outcome p1 _ H1)
      as (p2 & Hrun & Hlook & _).
    rewrite Hrun. cbn [snd].
    pose (a2 := Runtime p2 (event_sources a) (click_listeners a) []).
    exists a2. eexists. split; [reflexivity|]. split; [done|].
    split; [apply (Hclick a2 _ Hlook); done|].
    cbn [view in_flight a2]. rewrite (exportToPDF_begin_spec p2 _ Hlook). cbn. done.
Qed.
(** X15: the server's error envelope is no failed fetch.  A response of any
    status whose body is a JSON object without an [html] property takes the
    normal path: nothing is logged, and once the timer has fired the content
    area reads "undefined" at opacity 1, not the error message. *)
Theorem loadMarkdown_error_envelope (net : network) (p : page) (el : element)
    (r : response) (fields : gmap string js_value)
    (Hel : elements p !! "markdown-content" = Some el)
    (Htim : timers p = [])
    (Hnet : net "/api/markdown" = Fulfilled r)
    (Hjson : json_body r = Fulfilled (JObject fields))
    (Hhtml : fields !! "html" = None) :
  ∃ p' el', (loadMarkdown net ;;; fire_timer) p = (Fulfilled tt, p') ∧
            elements p' !! "markdown-content" = Some el' ∧
            innerHTML el' = "undefined" ∧ innerHTML el' ≠ error_markup ∧
            opacity el' = "1" ∧
            console p' = console p.
Proof.
  unfold loadMarkdown, fire_timer, run_callback.
  run_js. rewrite Hnet, Hjson. run_js. rewrite Hel. run_js. rewrite Htim. cbn [List.app].
  cbn [get_field]. rewrite Hhtml. run_js.
  eexists _, _. split; [reflexivity|]. run_js.
  split; [by rewrite !lookup_alter_eq, Hel|]. done.
Qed.
End MoreClientFacts.

(** ** The endpoint as listed *)

Section ListedEndpointFacts.
Import Server.
Variable print_to_pdf : string → pdf_options → settled string.
Variable navigate : string → settled string.
Variable PORT : string.

Abbreviation listed_generate_pdf := (listed_generate_pdf print_to_pdf navigate PORT).
Abbreviation listed_issued := (listed_issued print_to_pdf navigate PORT).

(** One request to the listed endpoint, in closed form. *)
Lemma listed_generate_pdf_spec (w : chromium) :
  listed_generate_pdf w =
    let pid := spawned w in
    let address := "http://localhost:" +:+ PORT in
    match navigate address with
    | Rejected _ =>
        (Fulfilled (json_error "Failed to generate PDF"),
         Chromium (<[pid := Browser true None None]> (processes w)) (S pid)
                  (calls w ++ (pair pid <$> [Launch; NewPage; Goto address])))
    | Fulfilled html =>
        match print_to_pdf html pdf_config with
        | Fulfilled bytes =>
            (Fulfilled (pdf_ok bytes),
             Chromium (delete pid (processes w)) (S pid)
                      (calls w ++ (pair pid <$> [Launch; NewPage; Goto address;
                                                 PrintPdf pdf_config; CloseBrowser])))
        | Rejected _ =>
            (Fulfilled (json_error "Failed to generate PDF"),
             Chromium (<[pid := Browser true None (Some html)]> (processes w)) (S pid)
                      (calls w ++ (pair pid <$> [Launch; NewPage; Goto address;
                                                 PrintPdf pdf_config])))
        end
    end.
Proof.
  unfold Server.listed_generate_pdf, try_catch.
  unfold bind, ret, launch, newPage, goto, pdf, close, issue, modify, on_browser.
  cbn. repeat (rewrite !lookup_insert_eq; cbn).
  destruct (navigate _) as [html|e]; cbn.
  - repeat (rewrite !lookup_insert_eq; cbn).
    destruct (print_to_pdf html pdf_config); cbn;
      rewrite ?insert_insert_eq, ?delete_insert_eq, <- !app_assoc; done.
  - rewrite ?insert_insert_eq, <- !app_assoc. done.
Qed.

(** X13: when the navigation and the print go through, the listed endpoint
    answers 200 with the PDF printed from what the navigation loaded, as
    application/pdf with an inline content disposition, and the browser it
    launched is gone; a never-used process number leaves the set of live
    browsers as it was. *)
Theorem listed_endpoint_success (w : chromium) (html bytes : string)
    (Hnav : navigate ("http://localhost:" +:+ PORT) = Fulfilled html)
    (Hprint : print_to_pdf html pdf_config = Fulfilled bytes) :
  ∃ w', listed_generate_pdf w = (Fulfilled (pdf_ok bytes), w') ∧
        status (pdf_ok bytes) = 200 ∧
        content_type (pdf_ok bytes) = "application/pdf" ∧
        body (pdf_ok bytes) = PdfDocument bytes ∧
        processes w' !! spawned w = None ∧
        (processes w !! spawned w = None → processes w' = processes w) ∧
        spawned w' = S (spawned w).
Proof.
  rewrite listed_generate_pdf_spec. cbn zeta. rewrite Hnav, Hprint.
  eexists. split; [reflexivity|]. cbn [processes spawned].
  do 3 (split; [done|]). split; [apply lookup_delete_eq|]. split; [|done].
  apply delete_id.
Qed.

(** X14: when the navigation or the print fails, the listed endpoint does
    not throw: it answers 500 with the error envelope.  But it never gets
    to [browser.close()]: no close is issued and the browser it launched is
    still running. *)
Theorem listed_endpoint_failure (w : chromium)
    (Hfail : match navigate ("http://localhost:" +:+ PORT) with
             | Rejected _ => True
             | Fulfilled html => ∃ e, print_to_pdf html pdf_config = Rejected e
             end) :
  ∃ w', listed_generate_pdf w
        = (Fulfilled (HttpResponse 500 "application/json" None
                        (ErrorEnvelope "Failed to generate PDF")), w') ∧
        is_Some (processes w' !! spawned w) ∧
        (∀ pid, (pid, CloseBrowser) ∉ listed_issued w).
Proof.
  unfold Server.listed_issued. rewrite listed_generate_pdf_spec. cbn zeta.
  destruct (navigate _) as [html|e].
  - destruct Hfail as [e ->]. eexists. split; [reflexivity|]. cbn [snd processes calls].
    split; [rewrite lookup_insert_eq; by eexists|].
    intros pid. rewrite drop_app_length. cbn.
    intros Hin. repeat (apply elem_of_cons in Hin as [Hin|Hin]; [by simplify_eq|]).
    by apply elem_of_nil in Hin.
  - eexists. split; [reflexivity|]. cbn [snd processes calls].
    split; [rewrite lookup_insert_eq; by eexists|].
    intros pid. rewrite drop_app_length. cbn.
    intros Hin. repeat (apply elem_of_cons in Hin as [Hin|Hin]; [by simplify_eq|]).
    by apply elem_of_nil in Hin.
Qed.
End ListedEndpointFacts.


(** ** The page in front of the content endpoint *)

Section EndToEndFacts.
Import Client.
Variable marked : string → settled string.
Variable dirname : string.

Ltac run_js :=
  repeat (cbn [fst snd elements console alerts windows timers object_urls requests
               with_elements with_console with_alerts with_windows with_timers
               with_object_urls with_requests] in *
          || unfold bind, ret, throw, await, try_catch, modify, gets in *
          || unfold getElementById, assign, read, console_log, console_error, alert,
                    setTimeout, createObjectURL, window_open, fetch in * ).

(** C6, where the code departs from it: the document cannot be read (or
    [marked] throws), the handler of /api/markdown answers status 500 with
    [{ error }], and the page loads its content from that answer.
    [loadMarkdown] does not look at [response.ok], as [exportToPDF] does: it
    takes the normal path, logs nothing, and once the timer has fired the
    content area reads "undefined" at full opacity, not the error
    message. *)
Theorem loadMarkdown_on_server_error (disk : gmap string string) (s : Server.server)
    (p : page) (el : element)
    (Hel : elements p !! "markdown-content" = Some el)
    (Htim : timers p = [])
    (Hfail : match disk !! Server.RESUME_PATH dirname with
             | None => True
             | Some markdown => ∃ e, marked markdown = Rejected e
             end) :
  let net := Http.content_service marked dirname disk s in
  ∃ r p' el',
    fst (Server.get_markdown marked dirname disk s) = Fulfilled r ∧
    Server.status r = 500 ∧
    Server.body r = Server.ErrorEnvelope "Failed to read markdown file" ∧
    net "/api/markdown" = Fulfilled (Http.received r) ∧
    ok (Http.received r) = false ∧
    (loadMarkdown net ;;; fire_timer) p = (Fulfilled tt, p') ∧
    elements p' !! "markdown-content" = Some el' ∧
    innerHTML el' = "undefined" ∧ innerHTML el' ≠ error_markup ∧
    opacity el' = "1" ∧
    console p' = console p.
Proof.
  intros net.
  assert (Hserver : fst (Server.get_markdown marked dirname disk s)
                    = Fulfilled (Server.json_error "Failed to read markdown file")).
  { rewrite get_markdown_spec. destruct (disk !! _) as [markdown|]; [|done].
    by destruct Hfail as [e ->]. }
  assert (Hnet : net "/api/markdown"
                 = Fulfilled (Http.received (Server.json_error "Failed to read markdown file"))).
  { unfold net, Http.content_service. by rewrite Hserver. }
  exists (Server.json_error "Failed to read markdown file").
  unfold loadMarkdown, fire_timer, run_callback.
  run_js. rewrite Hnet. cbn [Http.received Http.json_of Server.body Server.json_error json_body].
  run_js. rewrite Hel. run_js. rewrite Htim. cbn [List.app].
  cbn [get_field]. rewrite lookup_singleton_ne by done. run_js.
  eexists _, _. do 5 (split; [done|]). split; [reflexivity|]. run_js.
  split; [by rewrite !lookup_alter_eq, Hel|]. done.
Qed.
End EndToEndFacts.
(** ** The properties at sample inputs *)


(** C7 at a server that answers 500. *)
Lemma exportToPDF_failure_alerts_witness :
  Client.elements Sample.page !! "export-pdf-btn" = Some Sample.button ∧
  Client.export_request_fails (Sample.failing "/api/generate-pdf") = true ∧
  ∃ p' btn', Client.exportToPDF Sample.failing Sample.page = (Fulfilled tt, p') ∧
        Client.alerts p' = Client.alerts Sample.page ++ [Client.export_alert] ∧
        Client.elements p' !! "export-pdf-btn" = Some btn' ∧
        Client.textContent btn' = Client.textContent Sample.button ∧
        Client.disabled btn' = false.
Proof.
  split; [vm_compute; reflexivity|]. split; [reflexivity|].
  apply (exportToPDF_failure_alerts Sample.failing Sample.page Sample.button);
    [vm_compute; reflexivity|reflexivity].
Defined.

(** C10 at the sample page. *)
Lemma exportToPDF_button_states_witness :
  Client.elements Sample.page !! "export-pdf-btn" = Some Sample.button ∧
  ∃ p1 b1,
    Client.exportToPDF_begin Sample.page
      = (Fulfilled (Some "export-pdf-btn", Client.textContent Sample.button), p1) ∧
    Client.elements p1 !! "export-pdf-btn" = Some b1 ∧
    Client.disabled b1 = true ∧ Client.textContent b1 = Client.loading_label ∧
    ∀ (outcome : settled Client.response) (p2 : Client.page) (b2 : Client.element),
      Client.elements p2 !! "export-pdf-btn" = Some b2 →
      ∃ p3 b3,
        Client.exportToPDF_settle (Some "export-pdf-btn")
          (Client.textContent Sample.button) outcome p2 = (Fulfilled tt, p3) ∧
        Client.elements p3 !! "export-pdf-btn" = Some b3 ∧
        Client.textContent b3 = Client.textContent Sample.button ∧
        Client.disabled b3 = false ∧
        (∀ blob js, outcome = Fulfilled (Client.Response true js (Fulfilled blob)) →
           Client.windows p3
           = Client.windows p2 ++ [(Client.ObjectURL (length (Client.object_urls p2)), "_blank")]).
Proof.
  split; [vm_compute; reflexivity|].
  apply (exportToPDF_button_states Sample.page Sample.button).
  vm_compute; reflexivity.
Defined.

(** X1 at the sample page and a server that answers with the document. *)
Lemma loadMarkdown_phases_witness :
  Client.elements Sample.page !! "markdown-content" = Some Sample.content ∧
  Client.timers Sample.page = [] ∧
  ∃ p1 p2,
    Client.loadMarkdown (Sample.serving "<h1>Resume</h1>") Sample.page = (Fulfilled tt, p1) ∧
    Client.elements p1 !! "markdown-content"
      = Some (Client.set_opacity "0.5" Sample.content) ∧
    Client.timers p1
      = [(100, Client.ShowContent (Some "markdown-content")
                 (Client.JObject {[ "html" := Client.VString "<h1>Resume</h1>" ]}))] ∧
    Client.fire_timer p1 = (Fulfilled tt, p2) ∧
    Client.elements p2 !! "markdown-content"
      = Some (Client.Element
                (Client.to_markup
                   (default Client.VUndefined
                      (({[ "html" := Client.VString "<h1>Resume</h1>" ]}
                          : gmap string Client.js_value) !! "html")))
                (Client.textContent Sample.content) (Client.disabled Sample.content) "1") ∧
    Client.timers p2 = [].
Proof.
  split; [vm_compute; reflexivity|]. split; [reflexivity|].
  apply (loadMarkdown_phases (Sample.serving "<h1>Resume</h1>") Sample.page Sample.content
           (Client.Response true
              (Fulfilled (Client.JObject {[ "html" := Client.VString "<h1>Resume</h1>" ]}))
              (Fulfilled "%PDF-1.4")));
    [vm_compute; reflexivity|reflexivity|reflexivity|reflexivity].
Defined.

(** X2 at a page without the content element. *)
Lemma loadMarkdown_without_content_witness :
  Client.elements Sample.bare !! "markdown-content" = None ∧
  ∃ p', Client.loadMarkdown Sample.offline Sample.bare = (Rejected "TypeError", p') ∧
        Client.elements p' = Client.elements Sample.bare ∧
        Client.timers p' = Client.timers Sample.bare ∧
        Client.alerts p' = Client.alerts Sample.bare.
Proof.
  split; [reflexivity|].
  apply (loadMarkdown_without_content Sample.offline Sample.bare). reflexivity.
Defined.

(** X3 at a server whose body is [null]. *)
Lemma loadMarkdown_null_body_witness :
  Client.elements Sample.page !! "markdown-content" = Some Sample.content ∧
  ∃ p1 p2,
    Client.loadMarkdown Sample.serving_null Sample.page = (Fulfilled tt, p1) ∧
    Client.fire_timer p1 = (Rejected "TypeError", p2) ∧
    Client.elements p2 !! "markdown-content"
      = Some (Client.set_opacity "0.5" Sample.content) ∧
    Client.timers p2 = [].
Proof.
  split; [vm_compute; reflexivity|].
  apply (loadMarkdown_null_body Sample.serving_null Sample.page Sample.content
           (Client.Response true (Fulfilled Client.JNull) (Fulfilled "%PDF-1.4")));
    [vm_compute; reflexivity|reflexivity|reflexivity|reflexivity].
Defined.

(** X4 at two successful reloads followed by one that fails. *)
Lemma burst_last_parsed_wins_witness :
  let nets := [Sample.serving "<h1>v1</h1>"; Sample.serving "<h1>v2</h1>"; Sample.offline] in
  flat_map Wiring.parsed_body nets
    = [Client.JObject {[ "html" := Client.VString "<h1>v1</h1>" ]}]
      ++ [Client.JObject {[ "html" := Client.VString "<h1>v2</h1>" ]}] ∧
  ∃ p' el', (Wiring.burst nets ;;; Wiring.drain) Sample.page = (Fulfilled tt, p') ∧
            Client.elements p' !! "markdown-content" = Some el' ∧
            Client.innerHTML el'
              = Client.to_markup
                  (default Client.VUndefined
                     (({[ "html" := Client.VString "<h1>v2</h1>" ]}
                         : gmap string Client.js_value) !! "html")) ∧
            Client.opacity el' = "1" ∧
            Client.timers p' = [].
Proof.
  intros nets. split; [reflexivity|].
  apply (burst_last_parsed_wins nets Sample.page Sample.content
           [Client.JObject {[ "html" := Client.VString "<h1>v1</h1>" ]}]
           {[ "html" := Client.VString "<h1>v2</h1>" ]});
    [vm_compute; reflexivity|reflexivity|reflexivity].
Defined.

(** X6 at a page without the export button. *)
Lemma exportToPDF_without_button_witness :
  Client.elements Sample.bare !! "export-pdf-btn" = None ∧
  Client.exportToPDF Sample.offline Sample.bare = (Rejected "TypeError", Sample.bare).
Proof.
  split; [reflexivity|].
  apply (exportToPDF_without_button Sample.offline Sample.bare). reflexivity.
Defined.

(** X7 at a server that answers 500. *)
Lemma exportToPDF_frame_witness :
  Client.elements Sample.page !! "export-pdf-btn" = Some Sample.button ∧
  Client.requests (snd (Client.exportToPDF Sample.failing Sample.page))
    = Client.requests Sample.page ++ ["/api/generate-pdf"] ∧
  Client.timers (snd (Client.exportToPDF Sample.failing Sample.page))
    = Client.timers Sample.page ∧
  ∀ id, id ≠ "export-pdf-btn" →
        Client.elements (snd (Client.exportToPDF Sample.failing Sample.page)) !! id
        = Client.elements Sample.page !! id.
Proof.
  split; [vm_compute; reflexivity|].
  apply (exportToPDF_frame Sample.failing Sample.page Sample.button).
  vm_compute; reflexivity.
Defined.

(** X8 at a server that answers with a PDF. *)
Lemma exportToPDF_success_witness :
  Client.elements Sample.page !! "export-pdf-btn" = Some Sample.button ∧
  ∃ p', Client.exportToPDF (Sample.serving "<h1>Resume</h1>") Sample.page = (Fulfilled tt, p') ∧
        Client.windows p'
          = Client.windows Sample.page
            ++ [(Client.ObjectURL (length (Client.object_urls Sample.page)), "_blank")] ∧
        Client.object_urls p' !! length (Client.object_urls Sample.page) = Some "%PDF-1.4" ∧
        Client.alerts p' = Client.alerts Sample.page ∧
        Client.console p' = Client.console Sample.page ++ [(Client.Log, "✅ PDF generated successfully")].
Proof.
  split; [vm_compute; reflexivity|].
  apply (exportToPDF_success (Sample.serving "<h1>Resume</h1>") Sample.page Sample.button
           (Fulfilled (Client.JObject {[ "html" := Client.VString "<h1>Resume</h1>" ]}))
           "%PDF-1.4");
    [vm_compute; reflexivity|reflexivity].
Defined.

(** X9 at a message of type "ping". *)
Lemma onmessage_ignores_witness :
  let fields : gmap string Client.js_value := {[ "type" := Client.VString "ping" ]} in
  (∀ s, fields !! "type" = Some (Client.VString s) → s ≠ "connected" ∧ s ≠ "update") ∧
  Client.onmessage Sample.offline (Client.JObject fields) Sample.page
    = (Fulfilled tt, Sample.page) ∧
  Client.onmessage Sample.offline Client.JNull Sample.page = (Rejected "TypeError", Sample.page).
Proof.
  intros fields.
  assert (H : ∀ s, fields !! "type" = Some (Client.VString s) → s ≠ "connected" ∧ s ≠ "update").
  { intros s Hs. subst fields. rewrite lookup_singleton_eq in Hs.
    injection Hs as <-. split; discriminate. }
  split; [exact H|].
  exact (onmessage_ignores Sample.offline fields Sample.page H).
Defined.

(** X12 at the sample page once loaded. *)
Lemma click_starts_one_export_witness :
  Client.elements (Wiring.view Sample.loaded) !! "export-pdf-btn" = Some Sample.button ∧
  Client.disabled Sample.button = false ∧
  ∃ a1, Wiring.click "export-pdf-btn" Sample.loaded = (Fulfilled tt, a1) ∧
        Client.requests (Wiring.view a1)
          = Client.requests (Wiring.view Sample.loaded) ++ ["/api/generate-pdf"] ∧
        Wiring.in_flight a1 = [(Some "export-pdf-btn", Client.textContent Sample.button)] ∧
        Wiring.click "export-pdf-btn" a1 = (Fulfilled tt, a1) ∧
        ∀ outcome, ∃ a2 a3,
          Wiring.settle_export outcome a1 = (Fulfilled tt, a2) ∧ Wiring.in_flight a2 = [] ∧
          Wiring.click "export-pdf-btn" a2 = (Fulfilled tt, a3) ∧
          Client.requests (Wiring.view a3)
            = Client.requests (Wiring.view a2) ++ ["/api/generate-pdf"] ∧
          Wiring.in_flight a3 = [(Some "export-pdf-btn", Client.textContent Sample.button)].
Proof.
  split; [vm_compute; reflexivity|]. split; [reflexivity|].
  apply (click_starts_one_export Sample.loaded Sample.button);
    [vm_compute; reflexivity|reflexivity|reflexivity|reflexivity].
Defined.

(** X13 at a request to the listed endpoint on port 3000. *)
Lemma listed_endpoint_success_witness :
  Sample.navigate "http://localhost:3000" = Fulfilled "<html><body>resume</body></html>" ∧
  ∃ w', Server.listed_generate_pdf Sample.print_to_pdf Sample.navigate "3000" Sample.fresh
        = (Fulfilled (Server.pdf_ok ("%PDF-1.4 " +:+ "<html><body>resume</body></html>")), w') ∧
        Server.processes w' !! Server.spawned Sample.fresh = None ∧
        Server.spawned w' = S (Server.spawned Sample.fresh).
Proof.
  split; [reflexivity|].
  destruct (listed_endpoint_success Sample.print_to_pdf Sample.navigate "3000" Sample.fresh
              "<html><body>resume</body></html>"
              ("%PDF-1.4 " +:+ "<html><body>resume</body></html>") eq_refl eq_refl)
    as (w' & Hrun & _ & _ & _ & Hgone & _ & Hsp).
  exists w'. split; [exact Hrun|]. split; [exact Hgone|exact Hsp].
Defined.

(** X14 at a server nothing can navigate to. *)
Lemma listed_endpoint_failure_witness :
  ∃ w', Server.listed_generate_pdf Sample.print_to_pdf
          (λ _, Rejected "net::ERR_CONNECTION_REFUSED") "3000" Sample.fresh
        = (Fulfilled (Server.HttpResponse 500 "application/json" None
                        (Server.ErrorEnvelope "Failed to generate PDF")), w') ∧
        is_Some (Server.processes w' !! Server.spawned Sample.fresh) ∧
        (∀ pid, (pid, Server.CloseBrowser)
                ∉ Server.listed_issued Sample.print_to_pdf
                    (λ _, Rejected "net::ERR_CONNECTION_REFUSED") "3000" Sample.fresh).
Proof.
  apply (listed_endpoint_failure Sample.print_to_pdf
           (λ _, Rejected "net::ERR_CONNECTION_REFUSED") "3000" Sample.fresh).
  exact I.
Defined.

(** X15 at a server that answers 500 with the error envelope. *)
Lemma loadMarkdown_error_envelope_witness :
  Client.elements Sample.page !! "markdown-content" = Some Sample.content ∧
  ({[ "error" := Client.VString "Failed to generate PDF" ]} : gmap string Client.js_value)
    !! "html" = None ∧
  ∃ p' el', (Client.loadMarkdown Sample.failing ;;; Client.fire_timer) Sample.page
            = (Fulfilled tt, p') ∧
            Client.elements p' !! "markdown-content" = Some el' ∧
            Client.innerHTML el' = "undefined" ∧
            Client.innerHTML el' ≠ Client.error_markup ∧
            Client.opacity el' = "1" ∧
            Client.console p' = Client.console Sample.page.
Proof.
  split; [vm_compute; reflexivity|]. split; [vm_compute; reflexivity|].
  apply (loadMarkdown_error_envelope Sample.failing Sample.page Sample.content
           (Client.Response false
              (Fulfilled (Client.JObject {[ "error" := Client.VString "Failed to generate PDF" ]}))
              (Fulfilled "{}"))
           {[ "error" := Client.VString "Failed to generate PDF" ]});
    [vm_compute; reflexivity|reflexivity|reflexivity|reflexivity|vm_compute; reflexivity].
Defined.


(** C5 as stated fails: of three registered clients the second has a
    write that throws.  It is not so that every registered client with a
    working connection has the frame after [notifyClients]: the call
    throws, the third client has received nothing, and the console holds
    no line about the failure. *)
Lemma notifyClients_aborts :
  ¬ (∀ (s : Server.server) (h : nat) (c : Server.connection),
       Server.consistent s → h ∈ Server.clients s →
       Server.connections s !! h = Some c → Server.throws c = false →
       ∃ c', Server.connections (snd (Server.notifyClients s)) !! h = Some c' ∧
             Server.written c' = Server.written c ++ [Server.frame Server.Update]) ∧
  Server.clients Sample.crowd = [0; 1; 2] ∧
  fst (Server.notifyClients Sample.crowd) = Rejected "write failed" ∧
  Server.written <$> Server.connections (snd (Server.notifyClients Sample.crowd)) !! 0
    = Some [Server.frame Server.Connected; Server.frame Server.Update] ∧
  Server.written <$> Server.connections (snd (Server.notifyClients Sample.crowd)) !! 2
    = Some [Server.frame Server.Connected] ∧
  Server.console (snd (Server.notifyClients Sample.crowd))
    = Server.console Sample.crowd ++ [(Client.Log, "Notifying 3 client(s) of update")].
Proof.
  split; [|repeat split; vm_compute; reflexivity].
  intros H.
  destruct (H Sample.crowd 2
              (Server.Connection [("Content-Type", "text/event-stream");
                                  ("Cache-Control", "no-cache");
                                  ("Connection", "keep-alive");
                                  ("Access-Control-Allow-Origin", "*")]
                                 [Server.frame Server.Connected] false false))
    as (c' & Hc' & Hw).
  - apply consistent_run, consistent_boot.
  - vm_compute. do 2 right. left.
  - vm_compute; reflexivity.
  - reflexivity.
  - vm_compute in Hc'. injection Hc' as <-. vm_compute in Hw. discriminate Hw.
Qed.

(** C5 as amended, at the same three clients: the first is served, the
    call throws at the second. *)
Lemma notifyClients_delivery_witness :
  Server.consistent Sample.crowd ∧
  Server.served Sample.crowd (Server.clients Sample.crowd) = [0] ∧
  ∃ r s', Server.notifyClients Sample.crowd = (r, s') ∧
          Server.clients s' = Server.clients Sample.crowd ∧
          (∀ h c, h ∈ Server.served Sample.crowd (Server.clients Sample.crowd) →
                  Server.connections Sample.crowd !! h = Some c →
                  ∃ c', Server.connections s' !! h = Some c' ∧
                        Server.written c' = Server.written c ++ [Server.frame Server.Update] ∧
                        Server.closed c' = false) ∧
          (∀ h, h ∉ Server.served Sample.crowd (Server.clients Sample.crowd) →
                Server.connections s' !! h = Server.connections Sample.crowd !! h) ∧
          ((r = Fulfilled tt)
           ↔ (Server.served Sample.crowd (Server.clients Sample.crowd)
              = Server.clients Sample.crowd)).
Proof.
  assert (Hs : Server.consistent Sample.crowd)
    by apply consistent_run, consistent_boot.
  split; [exact Hs|]. split; [vm_compute; reflexivity|].
  destruct (notifyClients_delivery Sample.crowd Hs)
    as (r & s' & Hrun & Hcl & _ & Hin & Hout & Hr & _).
  exists r, s'. split; [exact Hrun|]. split; [exact Hcl|].
  split; [exact Hin|]. split; [exact Hout|exact Hr].
Defined.

(** C8 at a client who connects and then sees the file modified twice,
    with a creation in between: two runs of the 'change' listener, and a
    third modification reaches the client. *)
Lemma watcher_notifications_witness :
  let evs := [Server.ClientConnects; Server.Observed Server.Modified;
              Server.Observed Server.Created; Server.Observed Server.Modified] in
  let s := Server.run Sample.dirname (Server.Observed Server.Present :: evs) Server.boot in
  (Server.Interrupt ∉ evs) ∧ (∀ res, Server.ChannelBreaks res ∉ evs) ∧
  Server.step Sample.dirname (Server.Observed Server.Present) Server.boot = Server.boot ∧
  Server.change_lines (Server.RESUME_PATH Sample.dirname) (Server.console s) = 2 ∧
  ∃ c c', Server.connections s !! 0 = Some c ∧
          Server.connections (Server.step Sample.dirname (Server.Observed Server.Modified) s) !! 0
          = Some c' ∧
          Server.written c' = Server.written c ++ [Server.frame Server.Update].
Proof.
  intros evs s.
  assert (Hno : Server.Interrupt ∉ evs).
  { intros Hin. repeat (apply elem_of_cons in Hin as [Hin|Hin]; [discriminate Hin|]).
    by apply elem_of_nil in Hin. }
  assert (Hwrites : ∀ res, Server.ChannelBreaks res ∉ evs).
  { intros res Hin. repeat (apply elem_of_cons in Hin as [Hin|Hin]; [discriminate Hin|]).
    by apply elem_of_nil in Hin. }
  split; [exact Hno|]. split; [exact Hwrites|].
  destruct (watcher_notifications Sample.dirname evs Hno Hwrites)
    as (_ & Hstep & Hcount & _ & Hclients).
  split; [apply Hstep|]. split; [unfold s; rewrite Hcount; vm_compute; reflexivity|].
  apply (Hclients 0). vm_compute. left.
Defined.

(** C3 at a directory without the document, and at one with it. *)
Lemma get_markdown_envelope_witness :
  (∃ s', Server.get_markdown Sample.marked Sample.dirname Sample.unreadable Server.boot
         = (Fulfilled (Server.HttpResponse 500 "application/json" None
                         (Server.ErrorEnvelope "Failed to read markdown file")), s') ∧
         Server.exited s' = None) ∧
  Server.get_markdown Sample.marked Sample.dirname Sample.disk Server.boot
  = (Fulfilled (Server.HttpResponse 200 "application/json" None
                  (Server.HtmlEnvelope "<p>Hello</p>")), Server.boot).
Proof.
  split.
  - destruct (get_markdown_envelope Sample.marked Sample.dirname Sample.unreadable Server.boot)
      as (r & s' & Hrun & Hr & He & _).
    exists s'. split; [|exact He].
    rewrite Hrun. f_equal. f_equal. revert Hr. vm_compute. done.
  - destruct (get_markdown_envelope Sample.marked Sample.dirname Sample.disk Server.boot)
      as (r & s' & Hrun & Hr & _).
    rewrite Hrun. revert Hr. vm_compute. by intros [-> ->].
Defined.

(** C1 at a request that finds its files and meets no failure. *)
Lemma export_pdf_options_witness :
  ∃ options,
    (0, Server.PrintPdf options)
      ∈ Server.issued Sample.marked Sample.print_to_pdf Sample.dirname
          (Sample.request_of Sample.disk) Sample.idle ∧
    Server.letter_half_inch options.
Proof.
  apply (proj2 (export_pdf_options Sample.marked Sample.print_to_pdf Sample.dirname
                  (Sample.request_of Sample.disk) Sample.idle)
           ("%PDF-1.4 " +:+ Sample.html_of "Hello")).
  vm_compute; reflexivity.
Defined.




(** C6 at the failing input: the directory has no resume.md. *)
Lemma loadMarkdown_on_server_error_witness :
  Client.elements Sample.page !! "markdown-content" = Some Sample.content ∧
  Sample.unreadable !! Server.RESUME_PATH Sample.dirname = None ∧
  ∃ p' el',
    (Client.loadMarkdown
       (Http.content_service Sample.marked Sample.dirname Sample.unreadable Server.boot) ;;;
     Client.fire_timer) Sample.page = (Fulfilled tt, p') ∧
    Client.elements p' !! "markdown-content" = Some el' ∧
    Client.innerHTML el' = "undefined" ∧
    Client.innerHTML el' ≠ Client.error_markup ∧
    Client.opacity el' = "1".
Proof.
  assert (Hel : Client.elements Sample.page !! "markdown-content" = Some Sample.content)
    by (vm_compute; reflexivity).
  assert (Hno : Sample.unreadable !! Server.RESUME_PATH Sample.dirname = None)
    by (vm_compute; reflexivity).
  do 2 (split; [done|]).
  destruct (loadMarkdown_on_server_error Sample.marked Sample.dirname Sample.unreadable
              Server.boot Sample.page Sample.content Hel eq_refl)
    as (r & p' & el' & _ & _ & _ & _ & _ & Hrun & Hlook & Hund & Hne & Hop & _).
  { by rewrite Hno. }
  exists p', el'. done.
Defined.
